(** * piker/ui/_position.py: position marker, level line and labels

    A shallow embedding of [LevelMarker] and [PositionTracker] and the
    properties of the update protocol that keeps a position's level line,
    arrow marker and labels consistent.

    Layout: Python floats, exceptions and the state monad; the graphics
    collaborators ([Chart], [LevelLine], [Label], [Host], [ChartView]); the
    classes of the module; example inputs; the calls of the update protocol
    and the reachable states; then the theorems. *)

From Stdlib Require Import ZArith QArith Qround List String Bool Lia.
From Stdlib Require Import Floats.SpecFloat.
Import ListNotations.
Local Open Scope string_scope.
Local Open Scope Z_scope.

(* ================================================================= *)
(** ** Python floats *)

(** [size], [avg_price], levels and screen coordinates are Python floats
    (IEEE binary64).  They are values of [spec_float]; comparisons are the
    IEEE ones, so every comparison with a NaN operand is false and [!=] is
    true. *)
Module PyFloat.

Definition float : Set := spec_float.

Definition prec : Z := 53.
Definition emax : Z := 1024.

(** The float of an integer literal. *)
Definition of_Z (z : Z) : float := binary_normalize prec emax z 0 false.

Definition zero : float := S754_zero false.
Definition nan : float := S754_nan.

Definition is_nan (x : float) : bool :=
  match x with S754_nan => true | _ => false end.

(** [x == y], [x != y], [x < y], [x > y], [x <= y]. *)
Definition eqb (x y : float) : bool := SFeqb x y.
Definition neb (x y : float) : bool := negb (SFeqb x y).
Definition ltb (x y : float) : bool := SFltb x y.
Definition gtb (x y : float) : bool := SFltb y x.
Definition leb (x y : float) : bool := SFleb x y.

(** [bool(x)], the test of [if x:]: a float is falsy exactly when it
    equals zero. *)
Definition truthy (x : float) : bool := neb x zero.

Definition div (x y : float) : float := SFdiv prec emax x y.
Definition mul (x y : float) : float := SFmul prec emax x y.
Definition sub (x y : float) : float := SFsub prec emax x y.

End PyFloat.

Abbreviation float := PyFloat.float.

(** [QPointF(x, y)]. *)
Definition QPointF : Set := (float * float)%type.

(* ================================================================= *)
(** ** Exceptions and state *)

Inductive exn : Set :=
| UnboundLocalError (name : string)
| AttributeError (attr : string).

Inductive result (A : Type) : Type :=
| Ok (a : A)
| Raise (e : exn).

Arguments Ok {A} a.
Arguments Raise {A} e.

(** A method is a state transformer that returns normally or raises; the
    mutations made before a [raise] stay in the state, as in Python. *)
Definition M (S A : Type) : Type := S -> result A * S.

Definition ret {S A : Type} (a : A) : M S A := fun s => (Ok a, s).

Definition raise {S A : Type} (e : exn) : M S A := fun s => (Raise e, s).

Definition bind {S A B : Type} (m : M S A) (k : A -> M S B) : M S B :=
  fun s =>
    match m s with
    | (Ok a, s') => k a s'
    | (Raise e, s') => (Raise e, s')
    end.

Definition gets {S A : Type} (f : S -> A) : M S A := fun s => (Ok (f s), s).

Definition modify {S : Type} (f : S -> S) : M S unit := fun s => (Ok tt, f s).

Declare Scope py_scope.
Delimit Scope py_scope with py.

Notation "x <- m ;; k" := (bind m (fun x => k))
  (at level 61, m at next level, right associativity) : py_scope.
Notation "m ;; k" := (bind m (fun _ => k))
  (at level 61, right associativity) : py_scope.

Local Open Scope py_scope.

(** The state a call leaves behind, whether it returned or raised. *)
Definition state_after {S A : Type} (r : result A * S) : S := snd r.

(* ================================================================= *)
(** ** The chart: scene membership and range-change subscriptions *)

(** What this module uses of the [ChartPlotWidget] handle: the symbol of
    the linked charts, the items of the view box's scene, and the slots
    connected to the view box's [sigRangeChanged].  Graphics items are
    named by an identity drawn from [next_id] when they are constructed. *)
Module Chart.

Record t : Type := mk {
  symbol : string;
  next_id : nat;
  scene : list nat;
  sigRangeChanged : list nat
}.

Definition alloc : M t nat :=
  fun c => (Ok (next_id c),
            mk (symbol c) (S (next_id c)) (scene c) (sigRangeChanged c)).

Definition addItem (i : nat) : M t unit :=
  modify (fun c => mk (symbol c) (next_id c) (i :: scene c) (sigRangeChanged c)).

Definition removeItem (i : nat) : M t unit :=
  modify (fun c =>
    mk (symbol c) (next_id c) (List.remove Nat.eq_dec i (scene c))
       (sigRangeChanged c)).

Definition connect (slot : nat) : M t unit :=
  modify (fun c =>
    mk (symbol c) (next_id c) (scene c) (sigRangeChanged c ++ [slot])).

End Chart.

(* ================================================================= *)
(** ** The level-line primitive *)

(** Modelled from the spec: [LevelLine] and [level_line] live in
    [_lines.py], which is outside this module.  The line primitive is
    constructed with a level, a color and named boolean behaviour flags,
    and supports set-level, show/hide and delete; it exposes its current
    pen.  A new line is added to the chart and, like every graphics item, is
    visible until hidden. *)
Module LevelLine.

Record flags : Set := mk_flags {
  add_label : bool;
  hl_on_hover : bool;
  movable : bool;
  hide_xhair_on_hover : bool;
  use_marker_margin : bool;
  only_show_markers_on_hover : bool;
  always_show_labels : bool
}.

Record t : Set := mk {
  id : nat;
  value : float;
  color : string;
  opts : flags;
  visible : bool
}.

Definition currentPen (l : t) : string := color l.

Definition set_level (level : float) (l : t) : t :=
  mk (id l) level (color l) (opts l) (visible l).

Definition show (l : t) : t := mk (id l) (value l) (color l) (opts l) true.

Definition hide (l : t) : t := mk (id l) (value l) (color l) (opts l) false.

(** [line.delete()]: the line leaves the chart. *)
Definition delete (l : t) : M Chart.t unit := Chart.removeItem (id l).

End LevelLine.

Definition level_line (level : float) (color : string) (opts : LevelLine.flags)
  : M Chart.t LevelLine.t :=
  i <- Chart.alloc ;;
  Chart.addItem i ;;
  ret (LevelLine.mk i level color opts true).

(* ================================================================= *)
(** ** The label primitive *)

(** Modelled from the spec: [Label] lives in [_label.py], which is outside
    this module.  A label is constructed with a format string, a field
    mapping, a color and an anchor rule; [render] recomputes the displayed
    text from the fields, and it can be shown and hidden.  The displayed
    text is kept as the field values it was last rendered from, and
    [update_on_range_change] as the keyword argument when one is given. *)
Module Label.

(** The two anchor rules this module installs: [partial(gpath_pin,
    gpath=marker, label=pp_label)] and the lambda placing the size label
    right of the pp label. *)
Inductive anchor : Set :=
| partial_gpath_pin (gpath : nat)
| right_of_pp_label.

Definition dict : Set := list (string * float).

Fixpoint dict_set (k : string) (v : float) (d : dict) : dict :=
  match d with
  | [] => [(k, v)]
  | (k', v') :: r =>
      if String.eqb k k' then (k, v) :: r else (k', v') :: dict_set k v r
  end.

Fixpoint dict_get (k : string) (d : dict) : option float :=
  match d with
  | [] => None
  | (k', v') :: r => if String.eqb k k' then Some v' else dict_get k r
  end.

Record t : Set := mk {
  fmt_str : string;
  fields : dict;
  color : string;
  update_on_range_change : option bool;
  scene_anchor : option anchor;
  txt : option dict;
  visible : bool
}.

Definition new (fmt_str : string) (fields : dict) (color : string)
  (update_on_range_change : option bool) : t :=
  mk fmt_str fields color update_on_range_change None None true.

Definition set_field (k : string) (v : float) (l : t) : t :=
  mk (fmt_str l) (dict_set k v (fields l)) (color l)
     (update_on_range_change l) (scene_anchor l) (txt l) (visible l).

Definition set_scene_anchor (a : anchor) (l : t) : t :=
  mk (fmt_str l) (fields l) (color l) (update_on_range_change l) (Some a)
     (txt l) (visible l).

Definition render (l : t) : t :=
  mk (fmt_str l) (fields l) (color l) (update_on_range_change l)
     (scene_anchor l) (Some (fields l)) (visible l).

Definition show (l : t) : t :=
  mk (fmt_str l) (fields l) (color l) (update_on_range_change l)
     (scene_anchor l) (txt l) true.

Definition hide (l : t) : t :=
  mk (fmt_str l) (fields l) (color l) (update_on_range_change l)
     (scene_anchor l) (txt l) false.

End Label.

(* ================================================================= *)
(** ** What the host supplies *)

(** The dpi-aware font of [_style] and the glyph geometry of
    [mk_marker_path] followed by [mapToScene(...).boundingRect()]: the
    size [(width, height)] of the bounding box, in the scene, of the arrow
    glyph of a style, for an item of a given scale at a given position. *)
Module Host.

Record t : Type := mk {
  font_pixelSize : Z;
  marker_path_br : string -> Z -> QPointF -> float * float
}.

End Host.

(** The chart's view at the time of a paint or range-change callback: the
    visible range [[xmin, xmax], [ymin, ymax]], the view box's height, the
    map from view to scene coordinates, the three x positions of
    [marker_right_points(chart)], and the item's own [mapToScene]. *)
Module ChartView.

Record t : Type := mk {
  viewRange : (float * float) * (float * float);
  height : float;
  mapFromView : QPointF -> QPointF;
  marker_right_points : float * float * float;
  mapToScene : QPointF -> QPointF
}.

End ChartView.

(* ================================================================= *)
(** ** Position *)

(** The pp snapshot: last size and average entry price of a symbol, with
    the (here opaque) fill messages. *)
Module Position.

Record t : Set := mk {
  symbol : string;
  size : float;
  avg_price : float;
  fills : list string
}.

Definition set_avg_price (v : float) (p : t) : t :=
  mk (symbol p) (size p) v (fills p).

Definition set_size (v : float) (p : t) : t :=
  mk (symbol p) v (avg_price p) (fills p).

End Position.

(** The fields of a [BrokerdPosition] message that [update] reads. *)
Module BrokerdPosition.

Record t : Set := mk {
  avg_price : float;
  size : float
}.

End BrokerdPosition.

(** Reading a local variable that no branch assigned. *)
Definition local {S A : Type} (name : string) (v : option A) : M S A :=
  match v with
  | Some a => ret a
  | None => raise (UnboundLocalError name)
  end.

(* ================================================================= *)
(** ** LevelMarker *)

Module LevelMarker.

(** The label a marker re-anchors: the tracker's [pp_label]. *)
Inductive label_ref : Set := pp_label_ref.

(** [get_level] is the capability handed over at construction.  The one
    this module passes is the bound method [PositionTracker.level], which
    reads its tracker's [line] attribute when called: the capability is a
    function of that attribute's current content. *)
Record t : Type := mk {
  id : nat;
  scale : Z;
  _style : string;
  path_br : float * float;
  get_level : option LevelLine.t -> float;
  level : float;
  keep_in_view : bool;
  label : option label_ref;
  _direction : option string;
  pen : option string;
  brush : option string;
  visible : bool;
  pos : QPointF
}.

Definition set_level (v : float) (m : t) : t :=
  mk (id m) (scale m) (_style m) (path_br m) (get_level m) v
     (keep_in_view m) (label m) (_direction m) (pen m) (brush m)
     (visible m) (pos m).

Definition set_label (r : label_ref) (m : t) : t :=
  mk (id m) (scale m) (_style m) (path_br m) (get_level m) (level m)
     (keep_in_view m) (Some r) (_direction m) (pen m) (brush m)
     (visible m) (pos m).

Definition set_direction (d : string) (m : t) : t :=
  mk (id m) (scale m) (_style m) (path_br m) (get_level m) (level m)
     (keep_in_view m) (label m) (Some d) (pen m) (brush m)
     (visible m) (pos m).

Definition setPen (p : string) (m : t) : t :=
  mk (id m) (scale m) (_style m) (path_br m) (get_level m) (level m)
     (keep_in_view m) (label m) (_direction m) (Some p) (brush m)
     (visible m) (pos m).

Definition setBrush (b : string) (m : t) : t :=
  mk (id m) (scale m) (_style m) (path_br m) (get_level m) (level m)
     (keep_in_view m) (label m) (_direction m) (pen m) (Some b)
     (visible m) (pos m).

Definition show (m : t) : t :=
  mk (id m) (scale m) (_style m) (path_br m) (get_level m) (level m)
     (keep_in_view m) (label m) (_direction m) (pen m) (brush m)
     true (pos m).

Definition hide (m : t) : t :=
  mk (id m) (scale m) (_style m) (path_br m) (get_level m) (level m)
     (keep_in_view m) (label m) (_direction m) (pen m) (brush m)
     false (pos m).

Definition setPos (p : QPointF) (m : t) : t :=
  mk (id m) (scale m) (_style m) (path_br m) (get_level m) (level m)
     (keep_in_view m) (label m) (_direction m) (pen m) (brush m)
     (visible m) p.

(** [update()] schedules a repaint; the repaint itself is [paint], run by
    the event loop with the view of that moment. *)
Definition update (m : t) : t := m.

(** [delete]: [self.scene().removeItem(self)].  The glyph leaves the
    scene; for a glyph that is in no scene [self.scene()] is [None] and
    the call raises. *)
Definition delete (m : t) : M Chart.t unit :=
  fun c =>
    if existsb (Nat.eqb (id m)) (Chart.scene c) then
      Chart.removeItem (id m) c
    else raise (AttributeError "removeItem") c.

Definition h (m : t) : float := snd (path_br m).

Definition w (m : t) : float := fst (path_br m).

(** [scene_x = lambda: marker_right_points(chart)[1]]. *)
Definition scene_x (view : ChartView.t) : float :=
  snd (fst (ChartView.marker_right_points view)).

Section WithHost.

Variable host : Host.t.

(** The constructor.  [_style] starts as [None], so the [style] setter
    always generates the path and its bounding box here, with the item at
    the origin; the closing
    [assert self.path_br] checks the glyph generator of [_annotate], which
    is outside this module, and changes no state. *)
Definition __init__ (id : nat) (style : string)
  (get_level : option LevelLine.t -> float) (size : Z) (keep_in_view : bool)
  : t :=
  mk id size style
     (Host.marker_path_br host style size (PyFloat.zero, PyFloat.zero))
     get_level PyFloat.zero keep_in_view None None None None true
     (PyFloat.zero, PyFloat.zero).

(** The [style] setter: a new style regenerates the path and recomputes the
    cached bounding box, mapped to the scene from where the marker is. *)
Definition set_style (value : string) (m : t) : t :=
  if negb (String.eqb (_style m) value) then
    mk (id m) (scale m) value
       (Host.marker_path_br host value (scale m) (pos m))
       (get_level m) (level m) (keep_in_view m) (label m) (_direction m)
       (pen m) (brush m) (visible m) (pos m)
  else m.

End WithHost.

(** [position_in_view], called with the view of the moment and with the
    content of the [line] attribute that [get_level] reads.  The result
    also tells whether the label was asked to re-anchor
    ([label.update()]). *)
Definition position_in_view (view : ChartView.t) (line : option LevelLine.t)
  (m : t) : t * bool :=
  let level := get_level m line in
  let '(ymn, ymx) := snd (ChartView.viewRange view) in
  let x := scene_x view in
  let m' :=
    if PyFloat.gtb level ymx then
      setPos (x, PyFloat.div (h m) (PyFloat.of_Z 3)) m
    else if PyFloat.ltb level ymn then
      setPos (x, PyFloat.sub (ChartView.height view)
                   (PyFloat.mul (PyFloat.div (PyFloat.of_Z 4) (PyFloat.of_Z 3))
                                (h m))) m
    else
      setPos (x, snd (ChartView.mapFromView view
                        (PyFloat.zero, get_level m line))) m in
  (m', match label m' with Some _ => true | None => false end).

Definition paint (view : ChartView.t) (line : option LevelLine.t) (m : t)
  : t * bool :=
  if keep_in_view m then position_in_view view line m
  else
    (setPos (scene_x view,
             snd (ChartView.mapToScene view (PyFloat.zero, get_level m line)))
            m,
     false).

End LevelMarker.

(* ================================================================= *)
(** ** PositionTracker *)

Module PositionTracker.

(** A constructed tracker.  [pp_label], [size_label] and [_level_marker]
    hold an object from the end of [__init__] on; [line] is the optional
    level line.  The marker's [label] attribute and the tracker's
    [pp_label] name the same label object, which is kept here. *)
Record t : Type := mk {
  chart : Chart.t;
  info : Position.t;
  pp_label : Label.t;
  size_label : Label.t;
  line : option LevelLine.t;
  _level_marker : LevelMarker.t
}.

Definition _color : string := "default_light".

Definition set_chart (c : Chart.t) (self : t) : t :=
  mk c (info self) (pp_label self) (size_label self) (line self)
     (_level_marker self).

Definition set_info (f : Position.t -> Position.t) (self : t) : t :=
  mk (chart self) (f (info self)) (pp_label self) (size_label self)
     (line self) (_level_marker self).

Definition set_pp_label (f : Label.t -> Label.t) (self : t) : t :=
  mk (chart self) (info self) (f (pp_label self)) (size_label self)
     (line self) (_level_marker self).

Definition set_size_label (f : Label.t -> Label.t) (self : t) : t :=
  mk (chart self) (info self) (pp_label self) (f (size_label self))
     (line self) (_level_marker self).

Definition set_line (l : option LevelLine.t) (self : t) : t :=
  mk (chart self) (info self) (pp_label self) (size_label self) l
     (_level_marker self).

Definition set_marker (f : LevelMarker.t -> LevelMarker.t) (self : t) : t :=
  mk (chart self) (info self) (pp_label self) (size_label self) (line self)
     (f (_level_marker self)).

(** A call on the chart made from a method of the tracker. *)
Definition on_chart {A : Type} (m : M Chart.t A) : M t A :=
  fun self =>
    let (r, c) := m (chart self) in (r, set_chart c self).

Definition is_None {A : Type} (o : option A) : bool :=
  match o with None => true | Some _ => false end.

(** [level]: the method reads only [self.line], its argument here, so that
    the bound method can be stored in the marker as [get_level]. *)
Definition level (self_line : option LevelLine.t) : float :=
  match self_line with
  | Some line => LevelLine.value line
  | None => PyFloat.zero
  end.

(** [floor(1.375 * font_size)] for the integer [font_size] of
    [pixelSize()]; [1.375] and the product are exact in binary64. *)
Definition arrow_size (font_size : Z) : Z :=
  Qfloor (1.375 * inject_Z font_size)%Q.

(** The flags [position_line] passes to [level_line]. *)
Definition position_line_flags : LevelLine.flags :=
  LevelLine.mk_flags false false false false true false true.

Section WithHost.

Variable host : Host.t.

(** The body of [level_marker], on the chart, with the content of
    [self._level_marker] at the call ([None] while [__init__] runs). *)
Definition level_marker_on (prior : option LevelMarker.t) (size : float)
  : M Chart.t LevelMarker.t :=
  match prior with
  | Some m => LevelMarker.delete m
  | None => ret tt
  end ;;
  let font_size := Host.font_pixelSize host in
  let arrow_size := arrow_size font_size in
  let '(style, direction) :=
    if PyFloat.gtb size PyFloat.zero then (Some "|<", Some "up")
    else if PyFloat.ltb size PyFloat.zero then (Some ">|", Some "down")
    else (None, None) in
  style <- local "style" style ;;
  i <- Chart.alloc ;;
  let arrow :=
    LevelMarker.__init__ host i style level arrow_size true in
  direction <- local "direction" direction ;;
  let arrow := LevelMarker.set_direction direction arrow in
  Chart.addItem (LevelMarker.id arrow) ;;
  let arrow := LevelMarker.show arrow in
  ret arrow.

Definition level_marker (size : float) : M t LevelMarker.t :=
  fun self => on_chart (level_marker_on (Some (_level_marker self)) size) self.

(** [__init__]: a zeroed [Position], the placeholder marker built with
    [size=1], the pp label (rendered and shown) and the size label
    (rendered and hidden). *)
Definition __init__ (chart : Chart.t) : result t :=
  let info := Position.mk (Chart.symbol chart) PyFloat.zero PyFloat.zero [] in
  match level_marker_on None (PyFloat.of_Z 1) chart with
  | (Raise e, _) => Raise e
  | (Ok marker, chart) =>
      let pp_label := Label.new "pp" [] _color (Some false) in
      let marker := LevelMarker.set_label LevelMarker.pp_label_ref marker in
      let pp_label :=
        Label.set_scene_anchor
          (Label.partial_gpath_pin (LevelMarker.id marker)) pp_label in
      let pp_label := Label.render pp_label in
      let pp_label := Label.show pp_label in
      let size_label :=
        Label.new "x{entry_size}" [("entry_size", PyFloat.zero)] _color None in
      let size_label := Label.render size_label in
      let size_label :=
        Label.set_scene_anchor Label.right_of_pp_label size_label in
      let size_label := Label.hide size_label in
      Ok (mk chart info pp_label size_label None marker)
  end.

Definition show : M t unit :=
  size <- gets (fun self => Position.size (info self)) ;;
  if PyFloat.truthy size then
    line <- gets line ;;
    match line with
    | Some line => modify (set_line (Some (LevelLine.show line)))
    | None => raise (AttributeError "show")
    end ;;
    modify (set_marker LevelMarker.show) ;;
    modify (set_pp_label Label.show) ;;
    modify (set_size_label Label.show)
  else ret tt.

Definition hide : M t unit :=
  modify (set_pp_label Label.hide) ;;
  modify (set_marker LevelMarker.hide) ;;
  modify (set_size_label Label.hide) ;;
  line <- gets line ;;
  match line with
  | Some line => modify (set_line (Some (LevelLine.hide line)))
  | None => ret tt
  end.

Definition hide_info : M t unit :=
  modify (set_size_label Label.hide).

(** [position_line].  The local [line] and [self.line] name one object:
    the attribute is rewritten whenever the object changes. *)
Definition position_line (size level : float) : M t LevelLine.t :=
  line <- on_chart (level_line level _color position_line_flags) ;;
  modify (set_line (Some line)) ;;
  let style :=
    if PyFloat.gtb size PyFloat.zero then Some "|<"
    else if PyFloat.ltb size PyFloat.zero then Some ">|"
    else None in
  style <- local "style" style ;;
  modify (set_marker (LevelMarker.set_style host style)) ;;
  modify (set_marker (LevelMarker.setPen (LevelLine.currentPen line))) ;;
  modify (set_marker (LevelMarker.setBrush (LevelLine.currentPen line))) ;;
  modify (set_marker (LevelMarker.set_level level)) ;;
  modify (set_marker LevelMarker.update) ;;
  modify (set_marker LevelMarker.show) ;;
  marker <- gets _level_marker ;;
  on_chart (Chart.connect (LevelMarker.id marker)) ;;
  let line := LevelLine.set_level level line in
  modify (set_line (Some line)) ;;
  ret line.

Definition update_line (price size : float) : M t unit :=
  line <- gets line ;;
  if is_None line && PyFloat.truthy size then
    line <- position_line size price ;;
    modify (set_line (Some line)) ;;
    modify (set_line (Some (LevelLine.show line)))
  else
    match line with
    | Some line =>
        if PyFloat.neb size PyFloat.zero then
          let line := LevelLine.set_level price line in
          modify (set_line (Some line)) ;;
          modify (set_marker (LevelMarker.set_level price)) ;;
          modify (set_marker LevelMarker.update) ;;
          modify (set_line (Some (LevelLine.show line)))
        else
          on_chart (LevelLine.delete line) ;;
          modify (set_line None)
    | None => ret tt
    end.

Definition update (msg : BrokerdPosition.t) : M t unit :=
  let avg_price := BrokerdPosition.avg_price msg in
  let size := BrokerdPosition.size msg in
  modify (set_info (Position.set_avg_price avg_price)) ;;
  modify (set_info (Position.set_size size)) ;;
  update_line avg_price size ;;
  modify (set_size_label (Label.set_field "entry_size" size)) ;;
  modify (set_size_label Label.render) ;;
  if PyFloat.eqb size PyFloat.zero then hide
  else
    modify (set_marker (LevelMarker.set_level avg_price)) ;;
    modify (set_marker LevelMarker.update) ;;
    show.

(** A sequence of [update] calls, one per message; an exception ends it. *)
Fixpoint updates (msgs : list BrokerdPosition.t) : M t unit :=
  match msgs with
  | [] => ret tt
  | msg :: rest => update msg ;; updates rest
  end.

(** The marker repositioning itself ([sigRangeChanged] or a paint): its
    [get_level] reads the tracker's line of that moment. *)
Definition marker_position_in_view (view : ChartView.t) (self : t)
  : LevelMarker.t * bool :=
  LevelMarker.position_in_view view (line self) (_level_marker self).

End WithHost.

End PositionTracker.

(* ================================================================= *)
(** ** Example inputs *)

Module Examples.

(** A host with a 16 pixel font whose glyphs are squares of the scale. *)
Definition host : Host.t :=
  Host.mk 16 (fun _ scale _ => (PyFloat.of_Z scale, PyFloat.of_Z scale)).

Definition chart : Chart.t := Chart.mk "X" 0 [] [].

Definition msg (avg_price size : Z) : BrokerdPosition.t :=
  BrokerdPosition.mk (PyFloat.of_Z avg_price) (PyFloat.of_Z size).

(** The tracker [PositionTracker(chart)]. *)
Definition tracker : PositionTracker.t :=
  match PositionTracker.__init__ host chart with
  | Ok self => self
  | Raise _ =>
      PositionTracker.mk chart (Position.mk "X" PyFloat.zero PyFloat.zero [])
        (Label.new "pp" [] PositionTracker._color (Some false))
        (Label.new "" [] PositionTracker._color None) None
        (LevelMarker.__init__ host 0 "|<" PositionTracker.level 0 true)
  end.

(** A view showing the levels 10 to 100 on 400 pixels, with the linear map
    from a level to its pixel row. *)
Definition view : ChartView.t :=
  ChartView.mk
    ((PyFloat.zero, PyFloat.of_Z 1000), (PyFloat.of_Z 10, PyFloat.of_Z 100))
    (PyFloat.of_Z 400)
    (fun p => (fst p, PyFloat.sub (PyFloat.of_Z 400)
                        (PyFloat.mul (PyFloat.of_Z 4) (snd p))))
    (PyFloat.of_Z 900, PyFloat.of_Z 950, PyFloat.of_Z 990)
    (fun p => p).

End Examples.

(* ================================================================= *)
(** ** The update protocol *)

Module Protocol.

(** The inbound data contract: [size] is a signed number, that is, a float
    other than NaN. *)
Definition numeric (x : float) : Prop := PyFloat.is_nan x = false.

Definition well_formed (msg : BrokerdPosition.t) : Prop :=
  numeric (BrokerdPosition.size msg).

(** The calls a client makes on a constructed tracker. *)
Inductive call : Set :=
| Update (msg : BrokerdPosition.t)
| Show
| Hide
| HideInfo.

Section WithHost.

Variable host : Host.t.

Definition exec (c : call) : M PositionTracker.t unit :=
  match c with
  | Update msg => PositionTracker.update host msg
  | Show => PositionTracker.show
  | Hide => PositionTracker.hide
  | HideInfo => PositionTracker.hide_info
  end.

(** The states of a tracker: the one [__init__] builds, and the one any
    call leaves behind, whether it returned or raised. *)
Inductive reachable : PositionTracker.t -> Prop :=
| reach_init (chart : Chart.t) (self : PositionTracker.t) :
    PositionTracker.__init__ host chart = Ok self -> reachable self
| reach_call (c : call) (self : PositionTracker.t) :
    reachable self -> reachable (state_after (exec c self)).

End WithHost.

End Protocol.

(* ================================================================= *)
(** ** Sessions, repaints and the endpoint anchor *)

(** A session: the calls of a client one after the other, each on the
    state the previous one left, whether it returned or raised (a client
    that catches the exception goes on with the same tracker). *)
Module Session.

Definition is_update (c : Protocol.call) : bool :=
  match c with
  | Protocol.Update _ => true
  | _ => false
  end.

Section WithHost.

Variable host : Host.t.

Definition step (self : PositionTracker.t) (c : Protocol.call)
  : PositionTracker.t :=
  state_after (Protocol.exec host c self).

Definition run (cs : list Protocol.call) (self : PositionTracker.t)
  : PositionTracker.t :=
  fold_left step cs self.

End WithHost.

End Session.

Module TrackerView.

(** A paint cycle of the tracker's marker: [LevelMarker.paint] moves the
    marker object the tracker holds. *)
Definition repaint (view : ChartView.t) (self : PositionTracker.t)
  : PositionTracker.t :=
  PositionTracker.set_marker
    (fun m => fst (LevelMarker.paint view (PositionTracker.line self) m))
    self.

(** [align_to_marker], with the width [self.size_label.w] that the label
    primitive reports at the call. *)
Definition align_to_marker (size_label_w : float) (self : PositionTracker.t)
  : QPointF :=
  match PositionTracker.line self with
  | Some pp_line =>
      let mkr_pos := LevelMarker.pos (PositionTracker._level_marker self) in
      (PyFloat.sub (fst mkr_pos) size_label_w, snd mkr_pos)
  | None => (PyFloat.zero, PyFloat.zero)
  end.

End TrackerView.

(* ================================================================= *)
(** * Properties *)

Arguments PyFloat.of_Z : simpl never.
Arguments PositionTracker.arrow_size : simpl never.

(* ================================================================= *)
(** ** Float comparisons *)

Module PyFloatFacts.

Ltac by_cases x := destruct x as [[]|[]| |[] ? ?].

Ltac cmp_specs :=
  repeat match goal with
  | H : context [Z.compare ?a ?b] |- _ => destruct (Z.compare_spec a b)
  | |- context [Z.compare ?a ?b] => destruct (Z.compare_spec a b)
  | H : context [Pos.compare_cont Eq ?a ?b] |- _ =>
      change (Pos.compare_cont Eq a b) with (Pos.compare a b) in *;
      destruct (Pos.compare_spec a b)
  | |- context [Pos.compare_cont Eq ?a ?b] =>
      change (Pos.compare_cont Eq a b) with (Pos.compare a b) in *;
      destruct (Pos.compare_spec a b)
  end.

(** [x <= y] excludes [x > y]. *)
Lemma leb_not_gtb (x y : float) :
  PyFloat.leb x y = true -> PyFloat.gtb x y = false.
Proof.
  unfold PyFloat.leb, PyFloat.gtb, SFleb, SFltb.
  by_cases x; by_cases y; cbn; try congruence;
    cmp_specs; cbn in *; try congruence; subst; try lia.
Qed.

Lemma leb_not_ltb (x y : float) :
  PyFloat.leb x y = true -> PyFloat.ltb y x = false.
Proof. exact (leb_not_gtb x y). Qed.

(** [x < y <= z] excludes [x > z]. *)
Lemma ltb_leb_not_gtb (x y z : float) :
  PyFloat.ltb x y = true -> PyFloat.leb y z = true -> PyFloat.gtb x z = false.
Proof.
  unfold PyFloat.leb, PyFloat.gtb, PyFloat.ltb, SFleb, SFltb.
  by_cases x; by_cases y; cbn; try congruence;
    by_cases z; cbn; try congruence;
    cmp_specs; cbn in *; try congruence; subst; try lia.
Qed.

(** A zero is neither positive nor negative, and is falsy. *)
Lemma zero_sign (s : float) :
  PyFloat.eqb s PyFloat.zero = true ->
  PyFloat.gtb s PyFloat.zero = false /\ PyFloat.ltb s PyFloat.zero = false
  /\ PyFloat.truthy s = false.
Proof. by_cases s; cbn; intros; try discriminate; auto. Qed.

(** A number other than zero is positive or negative. *)
Lemma nonzero_sign (s : float) :
  Protocol.numeric s -> PyFloat.eqb s PyFloat.zero = false ->
  PyFloat.gtb s PyFloat.zero = true \/ PyFloat.ltb s PyFloat.zero = true.
Proof. unfold Protocol.numeric; by_cases s; cbn; intros; try discriminate; auto. Qed.

Lemma one_positive : PyFloat.gtb (PyFloat.of_Z 1) PyFloat.zero = true.
Proof. reflexivity. Qed.

End PyFloatFacts.

(* ================================================================= *)
(** ** LevelMarker: off-screen pinning *)

Module LevelMarkerSpec.

Import PyFloatFacts.

(** The three placements of [position_in_view], by the branch taken. *)
Lemma placed_top (view : ChartView.t) (line : option LevelLine.t)
  (m : LevelMarker.t) :
  PyFloat.gtb (LevelMarker.get_level m line)
              (snd (snd (ChartView.viewRange view))) = true ->
  fst (LevelMarker.position_in_view view line m) =
  LevelMarker.setPos
    (LevelMarker.scene_x view,
     PyFloat.div (LevelMarker.h m) (PyFloat.of_Z 3)) m.
Proof.
  intros H. unfold LevelMarker.position_in_view.
  destruct (snd (ChartView.viewRange view)) as [ymn ymx]. cbn in *.
  now rewrite H.
Qed.

Lemma placed_bottom (view : ChartView.t) (line : option LevelLine.t)
  (m : LevelMarker.t) :
  PyFloat.gtb (LevelMarker.get_level m line)
              (snd (snd (ChartView.viewRange view))) = false ->
  PyFloat.ltb (LevelMarker.get_level m line)
              (fst (snd (ChartView.viewRange view))) = true ->
  fst (LevelMarker.position_in_view view line m) =
  LevelMarker.setPos
    (LevelMarker.scene_x view,
     PyFloat.sub (ChartView.height view)
       (PyFloat.mul (PyFloat.div (PyFloat.of_Z 4) (PyFloat.of_Z 3))
                    (LevelMarker.h m))) m.
Proof.
  intros H1 H2. unfold LevelMarker.position_in_view.
  destruct (snd (ChartView.viewRange view)) as [ymn ymx]. cbn in *.
  now rewrite H1, H2.
Qed.

Lemma placed_mapped (view : ChartView.t) (line : option LevelLine.t)
  (m : LevelMarker.t) :
  PyFloat.gtb (LevelMarker.get_level m line)
              (snd (snd (ChartView.viewRange view))) = false ->
  PyFloat.ltb (LevelMarker.get_level m line)
              (fst (snd (ChartView.viewRange view))) = false ->
  fst (LevelMarker.position_in_view view line m) =
  LevelMarker.setPos
    (LevelMarker.scene_x view,
     snd (ChartView.mapFromView view
            (PyFloat.zero, LevelMarker.get_level m line))) m.
Proof.
  intros H1 H2. unfold LevelMarker.position_in_view.
  destruct (snd (ChartView.viewRange view)) as [ymn ymx]. cbn in *.
  now rewrite H1, H2.
Qed.

(** C3.  For every level [L] returned by [get_level] and every visible
    vertical range [[ymin, ymax]] (so [ymin <= ymax]),
    [position_in_view] moves the marker, and nothing else of it, to
    [y = h/3] when [L > ymax], to [y = height - 4/3*h] when [L < ymin], and
    to the view-mapped [y] of [L] when [ymin <= L <= ymax]; in particular,
    with [ymin = 10] and [ymax = 100], a level of 150 is pinned to the top,
    a level of 5 to the bottom, and a level of 50 is drawn at its mapped
    position. *)
Theorem position_in_view_pins (view : ChartView.t)
  (line : option LevelLine.t) (m : LevelMarker.t) :
  let L := LevelMarker.get_level m line in
  let ymin := fst (snd (ChartView.viewRange view)) in
  let ymax := snd (snd (ChartView.viewRange view)) in
  let x := LevelMarker.scene_x view in
  let h := LevelMarker.h m in
  let top := PyFloat.div h (PyFloat.of_Z 3) in
  let bottom :=
    PyFloat.sub (ChartView.height view)
      (PyFloat.mul (PyFloat.div (PyFloat.of_Z 4) (PyFloat.of_Z 3)) h) in
  let mapped := snd (ChartView.mapFromView view (PyFloat.zero, L)) in
  let placed := fst (LevelMarker.position_in_view view line m) in
  PyFloat.leb ymin ymax = true ->
  (PyFloat.gtb L ymax = true -> placed = LevelMarker.setPos (x, top) m)
  /\ (PyFloat.ltb L ymin = true -> placed = LevelMarker.setPos (x, bottom) m)
  /\ (PyFloat.leb ymin L = true -> PyFloat.leb L ymax = true ->
      placed = LevelMarker.setPos (x, mapped) m)
  /\ (ymin = PyFloat.of_Z 10 -> ymax = PyFloat.of_Z 100 ->
      (L = PyFloat.of_Z 150 -> LevelMarker.pos placed = (x, top))
      /\ (L = PyFloat.of_Z 5 -> LevelMarker.pos placed = (x, bottom))
      /\ (L = PyFloat.of_Z 50 -> LevelMarker.pos placed = (x, mapped))).
Proof.
  intros L ymin ymax x h top bottom mapped placed Hrange.
  assert (Htop : PyFloat.gtb L ymax = true ->
                 placed = LevelMarker.setPos (x, top) m)
    by (intros H; now apply placed_top).
  assert (Hbot : PyFloat.ltb L ymin = true ->
                 placed = LevelMarker.setPos (x, bottom) m).
  { intros H. apply placed_bottom; [|exact H].
    exact (ltb_leb_not_gtb L ymin ymax H Hrange). }
  assert (Hmap : PyFloat.leb ymin L = true -> PyFloat.leb L ymax = true ->
                 placed = LevelMarker.setPos (x, mapped) m).
  { intros H1 H2. apply placed_mapped.
    - now apply leb_not_gtb.
    - now apply leb_not_ltb. }
  split; [exact Htop|]. split; [exact Hbot|]. split; [exact Hmap|].
  intros Hmin Hmax. repeat split; intros HL.
  - rewrite Htop; [reflexivity|]. rewrite HL, Hmax. reflexivity.
  - rewrite Hbot; [reflexivity|]. rewrite HL, Hmin. reflexivity.
  - rewrite Hmap; [reflexivity| |].
    + rewrite HL, Hmin. reflexivity.
    + rewrite HL, Hmax. reflexivity.
Qed.

(** The pinning theorem at the example view (levels 10 to 100) and the
    marker of the example tracker, whose level reads 0 without a line. *)
Lemma position_in_view_pins_witness :
  let view := Examples.view in
  let line : option LevelLine.t := None in
  let m := PositionTracker._level_marker Examples.tracker in
  let L := LevelMarker.get_level m line in
  let ymin := fst (snd (ChartView.viewRange view)) in
  let ymax := snd (snd (ChartView.viewRange view)) in
  let x := LevelMarker.scene_x view in
  let h := LevelMarker.h m in
  let top := PyFloat.div h (PyFloat.of_Z 3) in
  let bottom :=
    PyFloat.sub (ChartView.height view)
      (PyFloat.mul (PyFloat.div (PyFloat.of_Z 4) (PyFloat.of_Z 3)) h) in
  let mapped := snd (ChartView.mapFromView view (PyFloat.zero, L)) in
  let placed := fst (LevelMarker.position_in_view view line m) in
  PyFloat.leb ymin ymax = true
  /\ (PyFloat.gtb L ymax = true -> placed = LevelMarker.setPos (x, top) m)
  /\ (PyFloat.ltb L ymin = true -> placed = LevelMarker.setPos (x, bottom) m)
  /\ (PyFloat.leb ymin L = true -> PyFloat.leb L ymax = true ->
      placed = LevelMarker.setPos (x, mapped) m)
  /\ (ymin = PyFloat.of_Z 10 -> ymax = PyFloat.of_Z 100 ->
      (L = PyFloat.of_Z 150 -> LevelMarker.pos placed = (x, top))
      /\ (L = PyFloat.of_Z 5 -> LevelMarker.pos placed = (x, bottom))
      /\ (L = PyFloat.of_Z 50 -> LevelMarker.pos placed = (x, mapped))).
Proof.
  split; [reflexivity|].
  apply (position_in_view_pins Examples.view None
           (PositionTracker._level_marker Examples.tracker)).
  reflexivity.
Defined.

End LevelMarkerSpec.

(* ================================================================= *)
(** ** PositionTracker: the update protocol *)

Module PositionTrackerSpec.

Import PositionTracker.

(** Case analysis on a tracker, its line slot and the class of a float
    (zero, infinity, NaN or finite, with its sign), after which every test
    of the methods computes. *)
Ltac open_tracker self :=
  destruct self as [?c ?i ?pp ?sl [?l|] ?mk].

Ltac crunch self s :=
  open_tracker self; PyFloatFacts.by_cases s.

Ltac tidy :=
  repeat match goal with
  | H : Some _ = Some _ |- _ => injection H as <-
  | H : Some _ = None |- _ => discriminate H
  | H : None = Some _ |- _ => discriminate H
  | H : ?x <> ?x |- _ => contradiction H; reflexivity
  end;
  cbn; try congruence; try reflexivity.

(** Evaluation that keeps the dictionary and scene operations folded. *)
Ltac norm :=
  cbv -[Label.dict_set List.remove Nat.eq_dec String.eqb
       PositionTracker.arrow_size
       PyFloat.of_Z Host.marker_path_br Host.font_pixelSize].

Ltac norm_in H :=
  cbv -[Label.dict_set List.remove Nat.eq_dec String.eqb
       PositionTracker.arrow_size
       PyFloat.of_Z Host.marker_path_br Host.font_pixelSize] in H.

(** Writing a key twice with one value is writing it once. *)
Lemma dict_set_idem (k : string) (v : float) (d : Label.dict) :
  Label.dict_set k v (Label.dict_set k v d) = Label.dict_set k v d.
Proof.
  induction d as [|[k' v'] d IH]; cbn.
  - now rewrite String.eqb_refl.
  - destruct (String.eqb k k') eqn:E; cbn.
    + now rewrite String.eqb_refl.
    + now rewrite E, IH.
Qed.

(** A key reads back the value last written to it. *)
Lemma dict_get_set (k : string) (v : float) (d : Label.dict) :
  Label.dict_get k (Label.dict_set k v d) = Some v.
Proof.
  induction d as [|[k' v'] d IH]; cbn.
  - now rewrite String.eqb_refl.
  - destruct (String.eqb k k') eqn:E; cbn.
    + now rewrite String.eqb_refl.
    + now rewrite E.
Qed.

(** The level of a marker whose style was set. *)
Ltac marker_level :=
  repeat match goal with
  | |- context [LevelMarker.set_style ?h ?v ?m] =>
      unfold LevelMarker.set_style; destruct (negb (String.eqb _ v))
  end.

(** Whether [delete] finds its glyph in the scene. *)
Lemma delete_in_scene (m : LevelMarker.t) (c : Chart.t) :
  In (LevelMarker.id m) (Chart.scene c) ->
  LevelMarker.delete m c = Chart.removeItem (LevelMarker.id m) c.
Proof.
  intros H. unfold LevelMarker.delete.
  replace (existsb _ _) with true; [reflexivity|].
  symmetry. apply existsb_exists. exists (LevelMarker.id m).
  split; [exact H|apply Nat.eqb_refl].
Qed.

Lemma delete_out_of_scene (m : LevelMarker.t) (c : Chart.t) :
  ~ In (LevelMarker.id m) (Chart.scene c) ->
  LevelMarker.delete m c = (Raise (AttributeError "removeItem"), c).
Proof.
  intros H. unfold LevelMarker.delete.
  destruct (existsb _ _) eqn:E; [|reflexivity].
  apply existsb_exists in E. destruct E as (x & Hx & Ex).
  apply Nat.eqb_eq in Ex. subst x. contradiction.
Qed.

Section WithHost.

Variable host : Host.t.

(** *** [level_marker] and the marker it deletes *)

Lemma level_marker_on_some (m : LevelMarker.t) (size : float) (c : Chart.t) :
  level_marker_on host (Some m) size c =
  bind (LevelMarker.delete m) (fun _ => level_marker_on host None size) c.
Proof. reflexivity. Qed.

(** With its marker in the scene, [level_marker] removes it and goes on
    as in the constructor. *)
Lemma level_marker_in_scene (self : t) (size : float) :
  In (LevelMarker.id (_level_marker self)) (Chart.scene (chart self)) ->
  level_marker host size self =
  on_chart
    (bind (Chart.removeItem (LevelMarker.id (_level_marker self)))
          (fun _ => level_marker_on host None size)) self.
Proof.
  intros H. unfold level_marker, on_chart. rewrite level_marker_on_some.
  unfold bind. rewrite (delete_in_scene _ _ H). reflexivity.
Qed.

(** With its marker out of the scene, [level_marker] raises in [delete]
    and changes nothing. *)
Lemma level_marker_out_of_scene (self : t) (size : float) :
  ~ In (LevelMarker.id (_level_marker self)) (Chart.scene (chart self)) ->
  level_marker host size self = (Raise (AttributeError "removeItem"), self).
Proof.
  intros H. unfold level_marker, on_chart. rewrite level_marker_on_some.
  unfold bind. rewrite (delete_out_of_scene _ _ H). now destruct self.
Qed.

(** *** Single calls *)

(** A well-formed message is always taken: [update] returns, the snapshot
    holds the message, the line exists exactly for a nonzero size, shown
    and at the message's price like the marker, at size zero the marker
    is hidden, and the size label is rendered from the new size. *)
Lemma update_step (self : t) (msg : BrokerdPosition.t) :
  Protocol.well_formed msg ->
  exists self',
    update host msg self = (Ok tt, self')
    /\ Position.size (info self') = BrokerdPosition.size msg
    /\ Position.avg_price (info self') = BrokerdPosition.avg_price msg
    /\ (line self' <> None <->
        PyFloat.eqb (BrokerdPosition.size msg) PyFloat.zero = false)
    /\ (forall l, line self' = Some l ->
          LevelLine.value l = BrokerdPosition.avg_price msg
          /\ LevelLine.visible l = true
          /\ LevelMarker.level (_level_marker self') =
             BrokerdPosition.avg_price msg
          /\ LevelMarker.visible (_level_marker self') = true)
    /\ (line self' = None ->
          LevelMarker.visible (_level_marker self') = false)
    /\ Label.dict_get "entry_size" (Label.fields (size_label self')) =
       Some (BrokerdPosition.size msg)
    /\ Label.txt (size_label self') = Some (Label.fields (size_label self')).
Proof.
  destruct msg as [p s]. unfold Protocol.well_formed, Protocol.numeric.
  crunch self s; intros Hs; try discriminate Hs;
    (eexists; split; [norm; reflexivity|]); cbn;
    repeat split; intros; tidy; apply dict_get_set.
Qed.

(** [updates] over a concatenation. *)
Lemma updates_app (a b : list BrokerdPosition.t) (self : t) :
  updates host (a ++ b) self = bind (updates host a) (fun _ => updates host b) self.
Proof.
  revert self. induction a as [|m a IH]; intros self; cbn [app updates].
  - reflexivity.
  - unfold bind. destruct (update host m self) as [[[]|e] self1].
    + rewrite IH. reflexivity.
    + reflexivity.
Qed.

(** Every call of a sequence of well-formed messages returns. *)
Lemma updates_return (msgs : list BrokerdPosition.t) (self : t) :
  Forall Protocol.well_formed msgs ->
  exists self', updates host msgs self = (Ok tt, self').
Proof.
  revert self. induction msgs as [|m msgs IH]; intros self Hwf.
  - eexists. reflexivity.
  - inversion Hwf as [|? ? Hm Hrest]; subst.
    destruct (update_step self m Hm) as (self1 & E & _).
    destruct (IH self1 Hrest) as (self' & E').
    exists self'. cbn [updates]. unfold bind. rewrite E. exact E'.
Qed.

(** [__init__] returns: the placeholder is built with [size=1]. *)
Lemma init_returns (chart : Chart.t) :
  exists self, __init__ host chart = Ok self.
Proof.
  unfold __init__, level_marker_on. rewrite PyFloatFacts.one_positive.
  cbn. eexists. reflexivity.
Qed.

(** *** The claims on [update] and [update_line] *)

(** C1, as amended.  For every sequence of [update] calls on a freshly
    constructed tracker, with messages whose size is a number (not NaN),
    every call returns, and after each call (here: after the last message
    [msg] of any prefix) the level line exists if and only if the updated
    size is nonzero, and whenever the line exists, the line's level and
    the marker's level are the [avg_price] of that most recent update. *)
Theorem update_line_exists_iff_size_nonzero (chart : Chart.t)
  (msgs : list BrokerdPosition.t) (msg : BrokerdPosition.t) :
  Forall Protocol.well_formed (msgs ++ [msg]) ->
  exists self0 self,
    __init__ host chart = Ok self0
    /\ updates host (msgs ++ [msg]) self0 = (Ok tt, self)
    /\ Position.size (info self) = BrokerdPosition.size msg
    /\ (line self <> None <->
        PyFloat.eqb (BrokerdPosition.size msg) PyFloat.zero = false)
    /\ (forall l, line self = Some l ->
          LevelLine.value l = BrokerdPosition.avg_price msg
          /\ LevelMarker.level (_level_marker self) =
             BrokerdPosition.avg_price msg).
Proof.
  intros Hwf. apply Forall_app in Hwf. destruct Hwf as [Hmsgs Hmsg].
  inversion Hmsg as [|? ? Hm _]; subst.
  destruct (init_returns chart) as (self0 & E0).
  destruct (updates_return msgs self0 Hmsgs) as (self1 & E1).
  destruct (update_step self1 msg Hm) as (self & E & Hsize & _ & Hiff & Hline & _).
  exists self0, self. split; [exact E0|]. split.
  - rewrite updates_app. unfold bind. rewrite E1. cbn [updates].
    unfold bind. rewrite E. reflexivity.
  - split; [exact Hsize|]. split; [exact Hiff|].
    intros l Hl. destruct (Hline l Hl) as (? & _ & ? & _). auto.
Qed.

(** C2, as amended.  [update_line] is the four-transition machine, for a
    size that is a number (not NaN).  From no-line, a nonzero size
    creates exactly one new line, allocated from the chart's counter and
    added to the scene, at the given price, shown and stored, and the
    marker's level is the price.  From line-active, size zero takes the
    line out of the scene and clears the reference, and nothing else of
    the tracker changes.  From line-active, a nonzero size keeps the same
    line object: its identity, color and flags stay, its level becomes
    the price and it is shown, so that a line that was shown only has its
    level changed; of the marker only the level changes, to the price;
    chart, snapshot and labels stay.  From no-line, size zero changes
    nothing. *)
Theorem update_line_transitions (self : t) (price size : float) :
  Protocol.numeric size ->
  (line self = None -> PyFloat.eqb size PyFloat.zero = false ->
   exists l self',
     update_line host price size self = (Ok tt, self')
     /\ line self' = Some l
     /\ LevelLine.value l = price
     /\ LevelLine.visible l = true
     /\ LevelLine.id l = Chart.next_id (chart self)
     /\ Chart.next_id (chart self') = S (Chart.next_id (chart self))
     /\ Chart.scene (chart self') = LevelLine.id l :: Chart.scene (chart self)
     /\ LevelMarker.level (_level_marker self') = price)
  /\ (forall l, line self = Some l ->
      PyFloat.eqb size PyFloat.zero = true ->
      update_line host price size self =
      (Ok tt,
       mk (Chart.mk (Chart.symbol (chart self)) (Chart.next_id (chart self))
             (List.remove Nat.eq_dec (LevelLine.id l)
                (Chart.scene (chart self)))
             (Chart.sigRangeChanged (chart self)))
          (info self) (pp_label self) (size_label self) None
          (_level_marker self))
      /\ ~ In (LevelLine.id l)
             (List.remove Nat.eq_dec (LevelLine.id l)
                (Chart.scene (chart self))))
  /\ (forall l, line self = Some l ->
      PyFloat.eqb size PyFloat.zero = false ->
      let m := _level_marker self in
      update_line host price size self =
      (Ok tt,
       mk (chart self) (info self) (pp_label self) (size_label self)
          (Some (LevelLine.mk (LevelLine.id l) price (LevelLine.color l)
                   (LevelLine.opts l) true))
          (LevelMarker.mk (LevelMarker.id m) (LevelMarker.scale m)
             (LevelMarker._style m) (LevelMarker.path_br m)
             (LevelMarker.get_level m) price (LevelMarker.keep_in_view m)
             (LevelMarker.label m) (LevelMarker._direction m)
             (LevelMarker.pen m) (LevelMarker.brush m)
             (LevelMarker.visible m) (LevelMarker.pos m)))
      /\ (LevelLine.visible l = true ->
          LevelLine.mk (LevelLine.id l) price (LevelLine.color l)
            (LevelLine.opts l) true =
          LevelLine.mk (LevelLine.id l) price (LevelLine.color l)
            (LevelLine.opts l) (LevelLine.visible l)))
  /\ (line self = None -> PyFloat.eqb size PyFloat.zero = true ->
      update_line host price size self = (Ok tt, self)).
Proof.
  unfold Protocol.numeric. intros Hs.
  split; [|split; [|split]].
  - intros Hl Hz. crunch self size; try discriminate Hs; try discriminate Hl;
      try discriminate Hz; do 2 eexists; (split; [norm; reflexivity|]);
      cbn; marker_level; repeat split.
  - intros l Hl Hz. split; [|apply remove_In].
    crunch self size; try discriminate Hs; try discriminate Hl;
      try discriminate Hz; injection Hl as <-; norm; reflexivity.
  - intros l Hl Hz. split.
    + crunch self size; try discriminate Hs; try discriminate Hl;
        try discriminate Hz; injection Hl as <-; norm; reflexivity.
    + intros Hv. now rewrite Hv.
  - intros Hl Hz. crunch self size; try discriminate Hs; try discriminate Hl;
      try discriminate Hz; norm; reflexivity.
Qed.

(** Taking a message twice: the second call returns the state of the
    first. *)
Lemma update_twice (self : t) (msg : BrokerdPosition.t) :
  Protocol.well_formed msg ->
  exists self1,
    update host msg self = (Ok tt, self1)
    /\ update host msg self1 = (Ok tt, self1).
Proof.
  destruct msg as [p s]. unfold Protocol.well_formed, Protocol.numeric.
  crunch self s; intros Hs; try discriminate Hs;
    (eexists; split; [norm; reflexivity|]);
    norm; rewrite dict_set_idem; reflexivity.
Qed.

(** C5, as amended.  [update] is idempotent for a message whose size is
    a number (not NaN): from every tracker state (so from every state
    reached by [update] calls), the message is taken, and taking it a
    second time returns and leaves the whole tracker (chart, snapshot,
    line, marker and both labels) as the first call left it; in
    particular the line slot is the same and no second line is
    constructed. *)
Theorem update_idempotent (self : t) (msg : BrokerdPosition.t) :
  Protocol.well_formed msg ->
  exists self1,
    update host msg self = (Ok tt, self1)
    /\ update host msg self1 = (Ok tt, self1)
    /\ line (state_after (update host msg self1)) = line self1
    /\ Chart.next_id (chart (state_after (update host msg self1))) =
       Chart.next_id (chart self1).
Proof.
  intros Hwf. destruct (update_twice self msg Hwf) as (self1 & E1 & E2).
  exists self1. rewrite E2. auto.
Qed.

(** *** Reachable states *)

Lemma set_style_id (value : string) (m : LevelMarker.t) :
  LevelMarker.id (LevelMarker.set_style host value m) = LevelMarker.id m.
Proof. unfold LevelMarker.set_style. now destruct (negb _). Qed.

Lemma set_style_get_level (value : string) (m : LevelMarker.t) :
  LevelMarker.get_level (LevelMarker.set_style host value m) =
  LevelMarker.get_level m.
Proof. unfold LevelMarker.set_style. now destruct (negb _). Qed.

(** What every reachable state satisfies: the marker still carries
    [level] as its [get_level], it is in the scene under an identity that
    no line shares, and a truthy size comes with a line. *)
Lemma reachable_invariant (self : t) :
  Protocol.reachable host self ->
  LevelMarker.get_level (_level_marker self) = level
  /\ In (LevelMarker.id (_level_marker self)) (Chart.scene (chart self))
  /\ (LevelMarker.id (_level_marker self) < Chart.next_id (chart self))%nat
  /\ (forall l, line self = Some l ->
        LevelLine.id l <> LevelMarker.id (_level_marker self))
  /\ (PyFloat.truthy (Position.size (info self)) = true -> line self <> None).
Proof.
  induction 1 as [chart0 self E | c self R IH].
  - unfold __init__, level_marker_on in E.
    rewrite PyFloatFacts.one_positive in E. cbn in E. injection E as <-.
    cbn. repeat split; auto; try lia; try discriminate.
  - destruct IH as (Hg & Hin & Hlt & Hne & Hsz).
    destruct c as [[p s]| | |]; unfold state_after, Protocol.exec.
    + crunch self s; cbn in *;
        repeat split; auto; try lia; try discriminate; intros; tidy;
        rewrite ?set_style_id, ?set_style_get_level;
        try assumption; try lia; try (right; assumption);
        try (exact (Hne _ eq_refl));
        try (apply in_in_remove;
             [intro; apply (Hne _ eq_refl); congruence | assumption]).
    + open_tracker self; unfold show, bind, gets; cbn in *;
        destruct (PyFloat.truthy (Position.size i)) eqn:Et; cbn;
        repeat split; auto; try lia; try discriminate; intros; tidy;
        try (exact (Hne _ eq_refl)); try (apply Hsz; reflexivity).
    + open_tracker self; cbn in *;
        repeat split; auto; try lia; try discriminate; intros; tidy;
        try (exact (Hne _ eq_refl)).
    + open_tracker self; cbn in *;
        repeat split; auto; try lia; try discriminate; intros; tidy.
Qed.

(** The integer form of the arrow size. *)
Lemma arrow_size_div (font_size : Z) :
  arrow_size font_size = 11 * font_size / 8.
Proof.
  unfold arrow_size, Qfloor. cbn [Qmult inject_Z Qnum Qden].
  change (Z.pos (1000 * 1)) with (125 * 8).
  replace (1375 * font_size) with (125 * (11 * font_size)) by lia.
  apply Z.div_mul_cancel_l; lia.
Qed.

(** *** Construction, visibility and the marker *)

(** C4, as amended.  Right after construction the size is zero, no level
    line exists and the marker exists (it is in the scene), but the marker
    is shown: it is the placeholder built with [size=1].  From every
    reachable state, an [update] with size zero returns and leaves the
    size zero, no level line, and the marker in the scene but hidden; a
    following [show()] changes nothing of that. *)
Theorem zero_size_hidden_after_update (chart0 : Chart.t) :
  (exists self0,
     __init__ host chart0 = Ok self0
     /\ PyFloat.eqb (Position.size (info self0)) PyFloat.zero = true
     /\ line self0 = None
     /\ In (LevelMarker.id (_level_marker self0)) (Chart.scene (chart self0))
     /\ LevelMarker.visible (_level_marker self0) = true)
  /\ (forall self msg,
        Protocol.reachable host self ->
        PyFloat.eqb (BrokerdPosition.size msg) PyFloat.zero = true ->
        exists self',
          update host msg self = (Ok tt, self')
          /\ PyFloat.eqb (Position.size (info self')) PyFloat.zero = true
          /\ line self' = None
          /\ In (LevelMarker.id (_level_marker self'))
                (Chart.scene (chart self'))
          /\ LevelMarker.visible (_level_marker self') = false
          /\ show self' = (Ok tt, self')).
Proof.
  split.
  - unfold __init__, level_marker_on. rewrite PyFloatFacts.one_positive.
    cbn. eexists. split; [reflexivity|]. cbn. auto.
  - intros self [p s] R Hz.
    destruct (reachable_invariant self R) as (_ & Hin & _ & Hne & _).
    crunch self s; cbn in Hz; try discriminate Hz; cbn in Hin, Hne;
      (eexists; split; [norm; reflexivity|]); cbn;
      repeat split; try exact Hin;
      try (apply in_in_remove;
           [intros E; apply (Hne _ eq_refl); symmetry; exact E | exact Hin]).
Qed.

(** C6, as amended.  On a tracker whose marker is in the scene (as it is
    after construction and after every [update], [show] and [hide]),
    [level_marker(size)] chooses the glyph from the sign of [size]: for
    every [size > 0] it returns an up marker (style ["|<"], direction
    ["up"]) and for every [size < 0] a down marker (style [">|"],
    direction ["down"]), in both cases scaled by
    [floor(1.375 * font_pixel_size)], bound to [level], added to the scene
    and shown.  Nothing is promised for [size == 0]: the tracker calls
    [level_marker] once, in its constructor, with [size=1]. *)
Theorem level_marker_follows_sign (self : t) (size : float) :
  In (LevelMarker.id (_level_marker self)) (Chart.scene (chart self)) ->
  let scale := Qfloor (1.375 * inject_Z (Host.font_pixelSize host))%Q in
  (PyFloat.gtb size PyFloat.zero = true ->
   exists arrow self',
     level_marker host size self = (Ok arrow, self')
     /\ LevelMarker._style arrow = "|<"
     /\ LevelMarker._direction arrow = Some "up"
     /\ LevelMarker.scale arrow = scale
     /\ LevelMarker.get_level arrow = level
     /\ LevelMarker.visible arrow = true
     /\ In (LevelMarker.id arrow) (Chart.scene (chart self')))
  /\ (PyFloat.ltb size PyFloat.zero = true ->
      exists arrow self',
        level_marker host size self = (Ok arrow, self')
        /\ LevelMarker._style arrow = ">|"
        /\ LevelMarker._direction arrow = Some "down"
        /\ LevelMarker.scale arrow = scale
        /\ LevelMarker.get_level arrow = level
        /\ LevelMarker.visible arrow = true
        /\ In (LevelMarker.id arrow) (Chart.scene (chart self')))
  /\ (exists arrow self',
        level_marker host (PyFloat.of_Z 1) self = (Ok arrow, self')
        /\ LevelMarker._direction arrow = Some "up").
Proof.
  intros Hin scale. subst scale.
  change (Qfloor (1.375 * inject_Z (Host.font_pixelSize host))%Q)
    with (arrow_size (Host.font_pixelSize host)).
  split; [|split].
  - intros Hs. rewrite (level_marker_in_scene self size Hin).
    crunch self size; cbn in Hs; try discriminate Hs;
      (do 2 eexists; split; [norm; reflexivity|]); cbn; repeat split; auto.
  - intros Hs. rewrite (level_marker_in_scene self size Hin).
    crunch self size; cbn in Hs; try discriminate Hs;
      (do 2 eexists; split; [norm; reflexivity|]); cbn; repeat split; auto.
  - rewrite (level_marker_in_scene self _ Hin).
    unfold on_chart, level_marker_on, bind.
    rewrite PyFloatFacts.one_positive.
    open_tracker self; (do 2 eexists; split; [norm; reflexivity|]);
      reflexivity.
Qed.

(** C7.  [show()] at size zero is a no-op: the whole tracker, and so the
    visibility of the marker, the line and both labels, is unchanged.  At
    a nonzero size, in every reachable state, a line exists and [show()]
    returns having shown the line, the marker, the pp label and the size
    label, and nothing else. *)
Theorem show_only_at_nonzero_size (self : t) :
  (PyFloat.eqb (Position.size (info self)) PyFloat.zero = true ->
   show self = (Ok tt, self))
  /\ (Protocol.reachable host self ->
      PyFloat.eqb (Position.size (info self)) PyFloat.zero = false ->
      exists l self',
        line self = Some l
        /\ show self = (Ok tt, self')
        /\ self' =
           set_size_label Label.show
             (set_pp_label Label.show
                (set_marker LevelMarker.show
                   (set_line (Some (LevelLine.show l)) self)))
        /\ line self' = Some (LevelLine.show l)
        /\ LevelLine.visible (LevelLine.show l) = true
        /\ LevelMarker.visible (_level_marker self') = true
        /\ Label.visible (pp_label self') = true
        /\ Label.visible (size_label self') = true).
Proof.
  split.
  - intros Hz. unfold show, bind, gets, PyFloat.truthy, PyFloat.neb.
    unfold PyFloat.eqb in Hz. rewrite Hz. reflexivity.
  - intros R Hz.
    destruct (reachable_invariant self R) as (_ & _ & _ & _ & Hsz).
    unfold PyFloat.truthy, PyFloat.neb in Hsz. unfold PyFloat.eqb in Hz.
    rewrite Hz in Hsz. specialize (Hsz eq_refl).
    open_tracker self; [|now contradiction Hsz]. cbn in Hz.
    exists l. eexists. split; [reflexivity|].
    split.
    + unfold show, bind, gets, PyFloat.truthy, PyFloat.neb. cbn.
      rewrite Hz. reflexivity.
    + cbn. repeat split.
Qed.

(** C8.  In every tracker state, whatever the size, [hide()] returns
    having hidden the marker, the pp label and the size label, and the
    level line whenever one exists; without a line there is still none. *)
Theorem hide_hides_marker_labels_and_line (self : t) :
  exists self',
    hide self = (Ok tt, self')
    /\ LevelMarker.visible (_level_marker self') = false
    /\ Label.visible (pp_label self') = false
    /\ Label.visible (size_label self') = false
    /\ (forall l, line self = Some l ->
          line self' = Some (LevelLine.hide l)
          /\ LevelLine.visible (LevelLine.hide l) = false)
    /\ (line self = None -> line self' = None)
    /\ info self' = info self.
Proof.
  open_tracker self; (eexists; split; [norm; reflexivity|]); cbn;
    repeat split; intros; tidy.
Qed.

(** C9.  [level()] returns the line's current level when a line exists
    and 0 otherwise.  It is the [get_level] capability of every marker
    that [level_marker] builds, and of the tracker's marker in every
    reachable state; so the marker reads the line's level of the moment:
    after an [update] to a new price with a nonzero size its [get_level]
    returns that price, and a repositioning within the visible range puts
    the marker at the mapped position of the line's current level. *)
Theorem level_is_marker_get_level (self : t) :
  Protocol.reachable host self ->
  (forall l, level (Some l) = LevelLine.value l)
  /\ level None = PyFloat.zero
  /\ (forall size arrow self',
        level_marker host size self = (Ok arrow, self') ->
        LevelMarker.get_level arrow = level)
  /\ LevelMarker.get_level (_level_marker self) = level
  /\ (forall msg,
        Protocol.well_formed msg ->
        PyFloat.eqb (BrokerdPosition.size msg) PyFloat.zero = false ->
        exists self',
          update host msg self = (Ok tt, self')
          /\ LevelMarker.get_level (_level_marker self') (line self') =
             BrokerdPosition.avg_price msg)
  /\ (forall view l,
        line self = Some l ->
        PyFloat.leb (fst (snd (ChartView.viewRange view))) (LevelLine.value l)
        = true ->
        PyFloat.leb (LevelLine.value l) (snd (snd (ChartView.viewRange view)))
        = true ->
        LevelMarker.pos (fst (marker_position_in_view view self)) =
        (LevelMarker.scene_x view,
         snd (ChartView.mapFromView view (PyFloat.zero, LevelLine.value l)))).
Proof.
  intros R.
  destruct (reachable_invariant self R) as (Hg & Hin & _).
  split; [reflexivity|]. split; [reflexivity|]. split; [|split; [exact Hg|split]].
  - intros size arrow self' E.
    rewrite (level_marker_in_scene self size Hin) in E.
    unfold on_chart, level_marker_on in E.
    open_tracker self; PyFloatFacts.by_cases size; norm_in E;
      try discriminate E; injection E as E1 E2; rewrite <- E1; reflexivity.
  - intros msg Hwf Hz.
    destruct (update_step self msg Hwf) as (self' & E & _ & _ & Hiff & Hline & _).
    exists self'. split; [exact E|].
    assert (R' : Protocol.reachable host self').
    { change self' with (state_after (Ok tt, self')). rewrite <- E.
      exact (Protocol.reach_call host (Protocol.Update msg) self R). }
    destruct (reachable_invariant self' R') as (Hg' & _).
    rewrite Hg'. apply Hiff in Hz.
    destruct (line self') as [l|] eqn:El; [|now contradiction Hz].
    cbn. now destruct (Hline l eq_refl).
  - intros view l El H1 H2. unfold marker_position_in_view.
    rewrite LevelMarkerSpec.placed_mapped; rewrite ?Hg, ?El; cbn [level].
    + reflexivity.
    + now apply PyFloatFacts.leb_not_gtb.
    + now apply PyFloatFacts.leb_not_ltb.
Qed.

(** C10, as amended.  Under the update protocol with sizes that are
    numbers (not NaN) the path on which [style] is left unassigned is not
    taken.  [position_line], and [level_marker] on a tracker whose marker
    is in the scene, raise [UnboundLocalError] for [style] exactly when
    the size is neither positive nor negative; the constructor returns (it
    calls [level_marker] with [size=1]) and every call of every sequence
    of [update]s with sizes that are numbers returns; and for a size equal
    to zero [update_line] returns without constructing a line, that is,
    without calling [position_line]. *)
Theorem style_assigned_under_updates (chart0 : Chart.t)
  (msgs : list BrokerdPosition.t) :
  Forall Protocol.well_formed msgs ->
  (exists self0 self,
     __init__ host chart0 = Ok self0
     /\ updates host msgs self0 = (Ok tt, self))
  /\ (forall self price size,
        PyFloat.eqb size PyFloat.zero = true ->
        exists self',
          update_line host price size self = (Ok tt, self')
          /\ Chart.next_id (chart self') = Chart.next_id (chart self))
  /\ (forall self size lvl,
        fst (position_line host size lvl self) =
        Raise (UnboundLocalError "style")
        <-> PyFloat.gtb size PyFloat.zero = false
            /\ PyFloat.ltb size PyFloat.zero = false)
  /\ (forall self size,
        In (LevelMarker.id (_level_marker self)) (Chart.scene (chart self)) ->
        (fst (level_marker host size self) =
         Raise (UnboundLocalError "style")
         <-> PyFloat.gtb size PyFloat.zero = false
             /\ PyFloat.ltb size PyFloat.zero = false)).
Proof.
  intros Hwf. split; [|split; [|split]].
  - destruct (init_returns chart0) as (self0 & E0).
    destruct (updates_return msgs self0 Hwf) as (self & E).
    exists self0, self. auto.
  - intros self price size Hz.
    crunch self size; cbn in Hz; try discriminate Hz;
      (eexists; split; [norm; reflexivity|]); reflexivity.
  - intros self size lvl.
    crunch self size; norm; split;
      try (intros [? ?]); try intros ?; try discriminate; auto.
  - intros self size Hin. rewrite (level_marker_in_scene self size Hin).
    crunch self size; norm; split;
      try (intros [? ?]); try intros ?; try discriminate; auto.
Qed.

End WithHost.

(* ================================================================= *)
(** ** The theorems at the example tracker *)

(** The example tracker is the one the constructor builds. *)
Lemma example_tracker_constructed :
  __init__ Examples.host Examples.chart = Ok Examples.tracker.
Proof. reflexivity. Qed.

(** The claim of C4 fails right after construction: the size is zero and
    the marker is shown. *)
Lemma fresh_tracker_marker_shown :
  exists self,
    __init__ Examples.host Examples.chart = Ok self
    /\ PyFloat.eqb (Position.size (info self)) PyFloat.zero = true
    /\ line self = None
    /\ LevelMarker.visible (_level_marker self) <> false.
Proof.
  exists Examples.tracker. split; [reflexivity|]. split; [reflexivity|].
  split; [reflexivity|]. vm_compute. discriminate.
Qed.

(** The claim of C6 fails at size zero: [level_marker(0)] builds no marker
    but raises on the unassigned [style].  It also fails for a positive
    size on a tracker whose marker has left the scene, as after a first
    [level_marker(5)]: there [delete] raises and no marker is built. *)
Lemma level_marker_zero_builds_no_marker :
  let after_first :=
    state_after (level_marker Examples.host (PyFloat.of_Z 5) Examples.tracker) in
  fst (level_marker Examples.host PyFloat.zero Examples.tracker) =
  Raise (UnboundLocalError "style")
  /\ ~ (exists arrow self',
          level_marker Examples.host PyFloat.zero Examples.tracker =
          (Ok arrow, self'))
  /\ fst (level_marker Examples.host (PyFloat.of_Z 5) after_first) =
     Raise (AttributeError "removeItem").
Proof.
  split; [reflexivity|]. split; [|reflexivity].
  intros (arrow & self' & E). vm_compute in E. discriminate E.
Qed.

(** A size that is not a number is outside the protocol: on a tracker
    without a line such an [update] stores the new line and then raises on
    the unassigned [style]. *)
Lemma update_nan_without_line_raises :
  let r :=
    update Examples.host (BrokerdPosition.mk (PyFloat.of_Z 100) PyFloat.nan)
      Examples.tracker in
  fst r = Raise (UnboundLocalError "style")
  /\ line (state_after r) <> None.
Proof. split; [reflexivity|]. vm_compute. discriminate. Qed.

(** The claim of C1 fails for a size that is NaN: on the fresh tracker
    the one-call sequence with the message (100, NaN) raises, and leaves a
    line for a nonzero size while the marker's level is not the price. *)
Lemma nan_update_leaves_marker_level_behind :
  let msg := BrokerdPosition.mk (PyFloat.of_Z 100) PyFloat.nan in
  let r := updates Examples.host [msg] Examples.tracker in
  __init__ Examples.host Examples.chart = Ok Examples.tracker
  /\ fst r = Raise (UnboundLocalError "style")
  /\ PyFloat.eqb (BrokerdPosition.size msg) PyFloat.zero = false
  /\ line (state_after r) <> None
  /\ LevelMarker.level (_level_marker (state_after r)) <>
     BrokerdPosition.avg_price msg.
Proof.
  repeat split; try reflexivity; vm_compute; discriminate.
Qed.

(** The claim of C2 fails for a size that is NaN: it is nonzero, and from
    no-line [update_line] does not complete the transition but raises. *)
Lemma update_line_nan_without_line_raises :
  PyFloat.neb PyFloat.nan PyFloat.zero = true
  /\ line Examples.tracker = None
  /\ fst (update_line Examples.host (PyFloat.of_Z 100) PyFloat.nan
            Examples.tracker) =
     Raise (UnboundLocalError "style")
  /\ ~ (exists self',
          update_line Examples.host (PyFloat.of_Z 100) PyFloat.nan
            Examples.tracker = (Ok tt, self')).
Proof.
  repeat split; try reflexivity.
  intros (self' & E). vm_compute in E. discriminate E.
Qed.

(** The claim of C5 fails for a size that is NaN: on the fresh tracker
    the first [update] with (100, NaN) raises, the second returns, and the
    state after the two calls is not the state after one: the marker's
    level and the size label's visibility differ. *)
Lemma update_twice_with_nan_differs :
  let msg := BrokerdPosition.mk (PyFloat.of_Z 100) PyFloat.nan in
  let once := state_after (update Examples.host msg Examples.tracker) in
  let twice := state_after (update Examples.host msg once) in
  fst (update Examples.host msg Examples.tracker) =
  Raise (UnboundLocalError "style")
  /\ fst (update Examples.host msg once) = Ok tt
  /\ twice <> once
  /\ LevelMarker.level (_level_marker twice) <>
     LevelMarker.level (_level_marker once)
  /\ Label.visible (size_label twice) <> Label.visible (size_label once).
Proof.
  cbn zeta. split; [reflexivity|]. split; [reflexivity|].
  assert (H : Label.visible
                (size_label
                   (state_after
                      (update Examples.host
                         (BrokerdPosition.mk (PyFloat.of_Z 100) PyFloat.nan)
                         (state_after
                            (update Examples.host
                               (BrokerdPosition.mk (PyFloat.of_Z 100)
                                  PyFloat.nan)
                               Examples.tracker))))) <>
              Label.visible
                (size_label
                   (state_after
                      (update Examples.host
                         (BrokerdPosition.mk (PyFloat.of_Z 100) PyFloat.nan)
                         Examples.tracker))))
    by (vm_compute; discriminate).
  split; [|split; [vm_compute; discriminate|exact H]].
  intros E. apply H. now rewrite E.
Qed.

(** The claim of C10 fails for a size that is NaN: it is truthy and
    neither positive nor negative, so on the fresh tracker the [update]
    calls [position_line], which reads the unassigned [style]. *)
Lemma nan_update_reaches_unassigned_style :
  let msg := BrokerdPosition.mk (PyFloat.of_Z 100) PyFloat.nan in
  __init__ Examples.host Examples.chart = Ok Examples.tracker
  /\ PyFloat.truthy PyFloat.nan = true
  /\ PyFloat.gtb PyFloat.nan PyFloat.zero = false
  /\ PyFloat.ltb PyFloat.nan PyFloat.zero = false
  /\ fst (position_line Examples.host PyFloat.nan (PyFloat.of_Z 100)
            Examples.tracker) =
     Raise (UnboundLocalError "style")
  /\ fst (updates Examples.host [msg] Examples.tracker) =
     Raise (UnboundLocalError "style").
Proof. repeat split. Qed.

(** C1 at the example tracker: a long position of 5 at 100, then flat. *)
Lemma update_line_exists_iff_size_nonzero_witness :
  Forall Protocol.well_formed ([Examples.msg 100 5] ++ [Examples.msg 100 0])
  /\ exists self0 self,
       __init__ Examples.host Examples.chart = Ok self0
       /\ updates Examples.host ([Examples.msg 100 5] ++ [Examples.msg 100 0])
            self0 = (Ok tt, self)
       /\ Position.size (info self) = BrokerdPosition.size (Examples.msg 100 0)
       /\ (line self <> None <->
           PyFloat.eqb (BrokerdPosition.size (Examples.msg 100 0)) PyFloat.zero
           = false)
       /\ (forall l, line self = Some l ->
             LevelLine.value l = BrokerdPosition.avg_price (Examples.msg 100 0)
             /\ LevelMarker.level (_level_marker self) =
                BrokerdPosition.avg_price (Examples.msg 100 0)).
Proof.
  split; [repeat constructor|].
  apply (update_line_exists_iff_size_nonzero Examples.host Examples.chart
           [Examples.msg 100 5] (Examples.msg 100 0)).
  repeat constructor.
Defined.

(** C2 at the example tracker, price 100 and size 5. *)
Lemma update_line_transitions_witness :
  let self := Examples.tracker in
  let price := PyFloat.of_Z 100 in
  let size := PyFloat.of_Z 5 in
  Protocol.numeric size
  /\ (line self = None -> PyFloat.eqb size PyFloat.zero = false ->
      exists l self',
        update_line Examples.host price size self = (Ok tt, self')
        /\ line self' = Some l
        /\ LevelLine.value l = price
        /\ LevelLine.visible l = true
        /\ LevelLine.id l = Chart.next_id (chart self)
        /\ Chart.next_id (chart self') = S (Chart.next_id (chart self))
        /\ Chart.scene (chart self') =
           LevelLine.id l :: Chart.scene (chart self)
        /\ LevelMarker.level (_level_marker self') = price)
  /\ (forall l, line self = Some l ->
      PyFloat.eqb size PyFloat.zero = true ->
      update_line Examples.host price size self =
      (Ok tt,
       mk (Chart.mk (Chart.symbol (chart self)) (Chart.next_id (chart self))
             (List.remove Nat.eq_dec (LevelLine.id l)
                (Chart.scene (chart self)))
             (Chart.sigRangeChanged (chart self)))
          (info self) (pp_label self) (size_label self) None
          (_level_marker self))
      /\ ~ In (LevelLine.id l)
             (List.remove Nat.eq_dec (LevelLine.id l)
                (Chart.scene (chart self))))
  /\ (forall l, line self = Some l ->
      PyFloat.eqb size PyFloat.zero = false ->
      let m := _level_marker self in
      update_line Examples.host price size self =
      (Ok tt,
       mk (chart self) (info self) (pp_label self) (size_label self)
          (Some (LevelLine.mk (LevelLine.id l) price (LevelLine.color l)
                   (LevelLine.opts l) true))
          (LevelMarker.mk (LevelMarker.id m) (LevelMarker.scale m)
             (LevelMarker._style m) (LevelMarker.path_br m)
             (LevelMarker.get_level m) price (LevelMarker.keep_in_view m)
             (LevelMarker.label m) (LevelMarker._direction m)
             (LevelMarker.pen m) (LevelMarker.brush m)
             (LevelMarker.visible m) (LevelMarker.pos m)))
      /\ (LevelLine.visible l = true ->
          LevelLine.mk (LevelLine.id l) price (LevelLine.color l)
            (LevelLine.opts l) true =
          LevelLine.mk (LevelLine.id l) price (LevelLine.color l)
            (LevelLine.opts l) (LevelLine.visible l)))
  /\ (line self = None -> PyFloat.eqb size PyFloat.zero = true ->
      update_line Examples.host price size self = (Ok tt, self)).
Proof.
  split; [reflexivity|].
  apply (update_line_transitions Examples.host Examples.tracker
           (PyFloat.of_Z 100) (PyFloat.of_Z 5)).
  reflexivity.
Defined.

(** C6 at the example tracker, whose marker is in the scene, and the
    size 5. *)
Lemma level_marker_follows_sign_witness :
  let self := Examples.tracker in
  let size := PyFloat.of_Z 5 in
  let scale :=
    Qfloor (1.375 * inject_Z (Host.font_pixelSize Examples.host))%Q in
  In (LevelMarker.id (_level_marker self)) (Chart.scene (chart self))
  /\ (PyFloat.gtb size PyFloat.zero = true ->
      exists arrow self',
        level_marker Examples.host size self = (Ok arrow, self')
        /\ LevelMarker._style arrow = "|<"
        /\ LevelMarker._direction arrow = Some "up"
        /\ LevelMarker.scale arrow = scale
        /\ LevelMarker.get_level arrow = level
        /\ LevelMarker.visible arrow = true
        /\ In (LevelMarker.id arrow) (Chart.scene (chart self')))
  /\ (PyFloat.ltb size PyFloat.zero = true ->
      exists arrow self',
        level_marker Examples.host size self = (Ok arrow, self')
        /\ LevelMarker._style arrow = ">|"
        /\ LevelMarker._direction arrow = Some "down"
        /\ LevelMarker.scale arrow = scale
        /\ LevelMarker.get_level arrow = level
        /\ LevelMarker.visible arrow = true
        /\ In (LevelMarker.id arrow) (Chart.scene (chart self')))
  /\ (exists arrow self',
        level_marker Examples.host (PyFloat.of_Z 1) self = (Ok arrow, self')
        /\ LevelMarker._direction arrow = Some "up").
Proof.
  assert (Hin : In (LevelMarker.id (_level_marker Examples.tracker))
                   (Chart.scene (chart Examples.tracker)))
    by (left; reflexivity).
  split; [exact Hin|].
  exact (level_marker_follows_sign Examples.host Examples.tracker
           (PyFloat.of_Z 5) Hin).
Defined.

(** C5 at the example tracker and the message (100, 5). *)
Lemma update_idempotent_witness :
  let self := Examples.tracker in
  let msg := Examples.msg 100 5 in
  Protocol.well_formed msg
  /\ exists self1,
       update Examples.host msg self = (Ok tt, self1)
       /\ update Examples.host msg self1 = (Ok tt, self1)
       /\ line (state_after (update Examples.host msg self1)) = line self1
       /\ Chart.next_id
            (chart (state_after (update Examples.host msg self1))) =
          Chart.next_id (chart self1).
Proof.
  split; [reflexivity|].
  apply (update_idempotent Examples.host Examples.tracker
           (Examples.msg 100 5)).
  reflexivity.
Defined.

(** C9 at the example tracker, which is reachable. *)
Lemma level_is_marker_get_level_witness :
  let self := Examples.tracker in
  Protocol.reachable Examples.host self
  /\ (forall l, level (Some l) = LevelLine.value l)
  /\ level None = PyFloat.zero
  /\ (forall size arrow self',
        level_marker Examples.host size self = (Ok arrow, self') ->
        LevelMarker.get_level arrow = level)
  /\ LevelMarker.get_level (_level_marker self) = level
  /\ (forall msg,
        Protocol.well_formed msg ->
        PyFloat.eqb (BrokerdPosition.size msg) PyFloat.zero = false ->
        exists self',
          update Examples.host msg self = (Ok tt, self')
          /\ LevelMarker.get_level (_level_marker self') (line self') =
             BrokerdPosition.avg_price msg)
  /\ (forall view l,
        line self = Some l ->
        PyFloat.leb (fst (snd (ChartView.viewRange view))) (LevelLine.value l)
        = true ->
        PyFloat.leb (LevelLine.value l) (snd (snd (ChartView.viewRange view)))
        = true ->
        LevelMarker.pos (fst (marker_position_in_view view self)) =
        (LevelMarker.scene_x view,
         snd (ChartView.mapFromView view (PyFloat.zero, LevelLine.value l)))).
Proof.
  assert (R : Protocol.reachable Examples.host Examples.tracker)
    by exact (Protocol.reach_init Examples.host Examples.chart
                Examples.tracker eq_refl).
  split; [exact R|].
  exact (level_is_marker_get_level Examples.host Examples.tracker R).
Defined.

(** C10 at the example tracker: short 3 at 50, moved to 52, then flat. *)
Lemma style_assigned_under_updates_witness :
  let msgs := [Examples.msg 50 (-3); Examples.msg 52 (-3); Examples.msg 52 0] in
  Forall Protocol.well_formed msgs
  /\ (exists self0 self,
        __init__ Examples.host Examples.chart = Ok self0
        /\ updates Examples.host msgs self0 = (Ok tt, self))
  /\ (forall self price size,
        PyFloat.eqb size PyFloat.zero = true ->
        exists self',
          update_line Examples.host price size self = (Ok tt, self')
          /\ Chart.next_id (chart self') = Chart.next_id (chart self))
  /\ (forall self size lvl,
        fst (position_line Examples.host size lvl self) =
        Raise (UnboundLocalError "style")
        <-> PyFloat.gtb size PyFloat.zero = false
            /\ PyFloat.ltb size PyFloat.zero = false)
  /\ (forall self size,
        In (LevelMarker.id (_level_marker self)) (Chart.scene (chart self)) ->
        (fst (level_marker Examples.host size self) =
         Raise (UnboundLocalError "style")
         <-> PyFloat.gtb size PyFloat.zero = false
             /\ PyFloat.ltb size PyFloat.zero = false)).
Proof.
  split; [repeat constructor|].
  apply (style_assigned_under_updates Examples.host Examples.chart
           [Examples.msg 50 (-3); Examples.msg 52 (-3); Examples.msg 52 0]).
  repeat constructor.
Defined.

End PositionTrackerSpec.

(* ================================================================= *)
(** ** Sessions: what the calls keep and what they never do *)

Module SessionSpec.

Import PositionTracker.
Import PositionTrackerSpec.

Section WithHost.

Variable host : Host.t.

(** *** The style setter *)

Lemma set_style_style (value : string) (m : LevelMarker.t) :
  LevelMarker._style (LevelMarker.set_style host value m) = value.
Proof.
  unfold LevelMarker.set_style.
  destruct (String.eqb_spec (LevelMarker._style m) value); cbn; auto.
Qed.

Lemma set_style_scale (value : string) (m : LevelMarker.t) :
  LevelMarker.scale (LevelMarker.set_style host value m) = LevelMarker.scale m.
Proof. unfold LevelMarker.set_style. now destruct (negb _). Qed.

Lemma set_style_keep_in_view (value : string) (m : LevelMarker.t) :
  LevelMarker.keep_in_view (LevelMarker.set_style host value m) =
  LevelMarker.keep_in_view m.
Proof. unfold LevelMarker.set_style. now destruct (negb _). Qed.

Lemma set_style_label (value : string) (m : LevelMarker.t) :
  LevelMarker.label (LevelMarker.set_style host value m) = LevelMarker.label m.
Proof. unfold LevelMarker.set_style. now destruct (negb _). Qed.

Lemma set_style_direction (value : string) (m : LevelMarker.t) :
  LevelMarker._direction (LevelMarker.set_style host value m) =
  LevelMarker._direction m.
Proof. unfold LevelMarker.set_style. now destruct (negb _). Qed.

(** Case analysis on the test of the style setter. *)
Ltac by_style :=
  repeat match goal with
  | |- context [String.eqb ?a ?b] => destruct (String.eqb a b)
  end.

Ltac marker_facts :=
  rewrite ?set_style_style, ?set_style_scale, ?set_style_keep_in_view,
    ?set_style_label, ?set_style_direction, ?set_style_id,
    ?set_style_get_level.

(** *** The shape of reachable states *)

(** Beside the facts of [reachable_invariant]: the marker is the one of
    the constructor, with its flags, scale and direction attribute, and
    one of the two arrow styles; the labels keep their anchors
    and the pp label its content; the snapshot keeps its symbol and its
    empty fills; a line is in the scene, with the color and the flags of
    [position_line]. *)
Lemma reachable_shape (self : t) :
  Protocol.reachable host self ->
  let m := _level_marker self in
  LevelMarker.keep_in_view m = true
  /\ LevelMarker.label m = Some LevelMarker.pp_label_ref
  /\ LevelMarker._direction m = Some "up"
  /\ LevelMarker.scale m = arrow_size (Host.font_pixelSize host)
  /\ (LevelMarker._style m = "|<" \/ LevelMarker._style m = ">|")
  /\ Label.scene_anchor (pp_label self) =
     Some (Label.partial_gpath_pin (LevelMarker.id m))
  /\ Label.fmt_str (pp_label self) = "pp"
  /\ Label.fields (pp_label self) = []
  /\ Label.scene_anchor (size_label self) = Some Label.right_of_pp_label
  /\ Position.fills (info self) = []
  /\ Position.symbol (info self) = Chart.symbol (chart self)
  /\ (forall l, line self = Some l ->
        In (LevelLine.id l) (Chart.scene (chart self))
        /\ LevelLine.color l = _color
        /\ LevelLine.opts l = position_line_flags).
Proof.
  induction 1 as [chart0 self E | c self R IH].
  - unfold __init__, level_marker_on in E.
    rewrite PyFloatFacts.one_positive in E. cbn in E. injection E as <-.
    cbn. repeat split; auto; discriminate.
  - cbn zeta in IH.
    destruct IH as (Hk & Hl & Hd & Hs & Hst & Hpa & Hpf & Hpd & Hsa
                    & Hf & Hsy & Hline).
    destruct c as [[p s]| | |]; unfold state_after, Protocol.exec.
    + crunch self s; cbn in *; marker_facts;
        repeat split; auto; intros; tidy; marker_facts; auto;
        try (now destruct (Hline _ eq_refl) as (? & ? & ?)).
    + open_tracker self; unfold show, bind, gets; cbn in *;
        destruct (PyFloat.truthy (Position.size i)) eqn:Et; cbn;
        repeat split; auto; intros; tidy;
        try (now destruct (Hline _ eq_refl) as (? & ? & ?)).
    + open_tracker self; cbn in *;
        repeat split; auto; intros; tidy;
        try (now destruct (Hline _ eq_refl) as (? & ? & ?)).
    + open_tracker self; cbn in *;
        repeat split; auto; intros; tidy;
        try (now destruct (Hline _ eq_refl) as (? & ? & ?)).
Qed.

(** A session stays within the reachable states. *)
Lemma run_reachable (cs : list Protocol.call) (self : t) :
  Protocol.reachable host self ->
  Protocol.reachable host (Session.run host cs self).
Proof.
  revert self. induction cs as [|c cs IH]; intros self R; cbn.
  - exact R.
  - apply IH. exact (Protocol.reach_call host c self R).
Qed.

(** *** When [update] and [show] raise *)

(** X1.  [update] raises in exactly one situation: the size is NaN while
    the tracker has no line.  The exception is then the
    [UnboundLocalError] of [style]; in every other situation, a NaN size
    on a tracker with a line included, [update] returns. *)
Theorem update_raises_iff_nan_without_line (self : t)
  (msg : BrokerdPosition.t) :
  (fst (update host msg self) = Raise (UnboundLocalError "style")
   <-> line self = None
       /\ PyFloat.is_nan (BrokerdPosition.size msg) = true)
  /\ (fst (update host msg self) = Ok tt
      <-> line self <> None
          \/ PyFloat.is_nan (BrokerdPosition.size msg) = false).
Proof.
  destruct msg as [p s].
  crunch self s; norm; repeat split; intros;
    repeat match goal with
    | H : _ /\ _ |- _ => destruct H
    | H : _ \/ _ |- _ => destruct H
    end;
    try discriminate; try congruence; auto;
    try (left; discriminate).
Qed.

(** X2.  An [update] that raises is not undone: the snapshot already
    holds the message, and the new line is already constructed at the
    price, in the scene and stored in [line], while the subscriptions, the
    marker and both labels are as they were before the call. *)
Theorem update_raise_leaves_line_stored (self : t) (price : float) :
  line self = None ->
  let msg := BrokerdPosition.mk price PyFloat.nan in
  let self' := state_after (update host msg self) in
  fst (update host msg self) = Raise (UnboundLocalError "style")
  /\ info self' =
     Position.set_size PyFloat.nan (Position.set_avg_price price (info self))
  /\ (exists l,
        line self' = Some l
        /\ LevelLine.id l = Chart.next_id (chart self)
        /\ LevelLine.value l = price
        /\ Chart.scene (chart self') = LevelLine.id l :: Chart.scene (chart self))
  /\ Chart.sigRangeChanged (chart self') = Chart.sigRangeChanged (chart self)
  /\ _level_marker self' = _level_marker self
  /\ pp_label self' = pp_label self
  /\ size_label self' = size_label self.
Proof.
  intros Hl. open_tracker self; [discriminate Hl|].
  norm. repeat split. eexists. repeat split.
Qed.

(** X3.  [show()] raises in exactly one situation, a truthy size without
    a line, where it fails on [self.line.show()] before showing anything;
    no session reaches that situation, so on a reachable tracker [show()]
    always returns. *)
Theorem show_raises_iff_size_without_line (self : t) :
  (fst (show self) = Raise (AttributeError "show")
   <-> PyFloat.truthy (Position.size (info self)) = true /\ line self = None)
  /\ (fst (show self) = Raise (AttributeError "show") ->
      state_after (show self) = self)
  /\ (Protocol.reachable host self -> fst (show self) = Ok tt).
Proof.
  assert (Hiff :
    fst (show self) = Raise (AttributeError "show")
    <-> PyFloat.truthy (Position.size (info self)) = true /\ line self = None).
  { open_tracker self; unfold show, bind, gets; cbn;
      destruct (PyFloat.truthy (Position.size i)); cbn;
      split; intros; try discriminate; auto;
      match goal with H : _ /\ _ |- _ => destruct H; discriminate end. }
  split; [exact Hiff|]. split.
  - intros H. apply Hiff in H. destruct H as [Ht Hl].
    open_tracker self; [discriminate Hl|].
    unfold show, bind, gets, state_after; cbn in *. rewrite Ht. reflexivity.
  - intros R.
    destruct (reachable_invariant host self R) as (_ & _ & _ & _ & Hsz).
    open_tracker self; unfold show, bind, gets; cbn in *;
      destruct (PyFloat.truthy (Position.size i)); cbn; auto.
    now contradiction Hsz.
Qed.

(** *** What an [update] leaves visible *)

(** X4.  After an [update] with a size that is a number, the marker, the
    pp label and the size label are visible exactly when the size is
    nonzero; a line that exists is shown, and at size zero there is
    none. *)
Theorem update_shows_all_or_hides_all (self : t) (msg : BrokerdPosition.t) :
  Protocol.well_formed msg ->
  let self' := state_after (update host msg self) in
  let shown := negb (PyFloat.eqb (BrokerdPosition.size msg) PyFloat.zero) in
  LevelMarker.visible (_level_marker self') = shown
  /\ Label.visible (pp_label self') = shown
  /\ Label.visible (size_label self') = shown
  /\ (forall l, line self' = Some l -> LevelLine.visible l = true)
  /\ (shown = false -> line self' = None).
Proof.
  destruct msg as [p s]. unfold Protocol.well_formed, Protocol.numeric.
  crunch self s; intros Hs; try discriminate Hs; unfold state_after; cbn;
    repeat split; intros; tidy.
Qed.

(** X5.  The marker's glyph style follows the sign of the size only when
    the line is created: an [update] on a tracker without a line sets the
    style to ["|<"] for a positive and to [">|"] for a negative size; an
    [update] on a tracker with a line leaves the style as it is, also when
    the sign of the size has changed. *)
Theorem marker_style_set_when_line_is_created (self : t)
  (msg : BrokerdPosition.t) :
  let size := BrokerdPosition.size msg in
  let self' := state_after (update host msg self) in
  (line self = None -> PyFloat.gtb size PyFloat.zero = true ->
   LevelMarker._style (_level_marker self') = "|<")
  /\ (line self = None -> PyFloat.ltb size PyFloat.zero = true ->
      LevelMarker._style (_level_marker self') = ">|")
  /\ (line self <> None ->
      LevelMarker._style (_level_marker self') =
      LevelMarker._style (_level_marker self)).
Proof.
  destruct msg as [p s].
  crunch self s; unfold state_after; cbn;
    repeat split; intros; tidy; marker_facts; auto.
Qed.

(** X8.  The cached bounding box is taken when the style changes, at
    the position the marker has at that moment.  [position_line] with a
    positive or negative size leaves the marker where it is; when the
    style of that sign differs from the marker's, the box becomes the box
    of the new style at the marker's scale and position; when it is the
    marker's style already, the cached box stays as it was, wherever the
    marker has been moved since it was taken. *)
Theorem bounding_box_taken_at_style_change (self : t) (size level : float) :
  PyFloat.gtb size PyFloat.zero = true \/ PyFloat.ltb size PyFloat.zero = true ->
  let style := if PyFloat.gtb size PyFloat.zero then "|<" else ">|" in
  let m := _level_marker self in
  let m' := _level_marker (state_after (position_line host size level self)) in
  LevelMarker._style m' = style
  /\ LevelMarker.pos m' = LevelMarker.pos m
  /\ LevelMarker.scale m' = LevelMarker.scale m
  /\ (LevelMarker._style m <> style ->
      LevelMarker.path_br m' =
      Host.marker_path_br host style (LevelMarker.scale m) (LevelMarker.pos m))
  /\ (LevelMarker._style m = style ->
      LevelMarker.path_br m' = LevelMarker.path_br m).
Proof.
  intros Hs. cbn zeta.
  assert (Hbox : forall style m,
    (LevelMarker._style m <> style ->
     LevelMarker.path_br (LevelMarker.set_style host style m) =
     Host.marker_path_br host style (LevelMarker.scale m) (LevelMarker.pos m))
    /\ (LevelMarker._style m = style ->
        LevelMarker.path_br (LevelMarker.set_style host style m) =
        LevelMarker.path_br m)).
  { intros style m. unfold LevelMarker.set_style.
    destruct (String.eqb_spec (LevelMarker._style m) style); cbn;
      split; intros; auto; contradiction. }
  unfold state_after.
  crunch self size; cbn in Hs; destruct Hs as [Hs|Hs]; try discriminate Hs;
    cbn; marker_facts; (split; [reflexivity|]);
    (split; [unfold LevelMarker.set_style; now destruct (negb _)|]);
    (split; [reflexivity|]); apply Hbox.
Qed.

(** *** What no session changes *)

(** X6.  The [_direction] attribute is written once, by [level_marker] in
    the constructor: whatever calls follow, it stays ["up"], also when an
    [update] has turned the glyph to the down style. *)
Theorem direction_attribute_stays_up (chart0 : Chart.t) :
  exists self0,
    __init__ host chart0 = Ok self0
    /\ forall cs,
         LevelMarker._direction (_level_marker (Session.run host cs self0)) =
         Some "up".
Proof.
  destruct (init_returns host chart0) as (self0 & E0).
  exists self0. split; [exact E0|]. intros cs.
  assert (R : Protocol.reachable host (Session.run host cs self0))
    by (apply run_reachable; exact (Protocol.reach_init host chart0 self0 E0)).
  now destruct (reachable_shape _ R) as (_ & _ & Hd & _).
Qed.

(** X7.  The tracker's marker always keeps itself in view and always has
    its label: in every state of every session a paint cycle is
    [position_in_view], and it asks the pp label to re-anchor. *)
Theorem paint_pins_and_reanchors (chart0 : Chart.t) :
  exists self0,
    __init__ host chart0 = Ok self0
    /\ forall cs view,
         let self := Session.run host cs self0 in
         LevelMarker.paint view (line self) (_level_marker self) =
         LevelMarker.position_in_view view (line self) (_level_marker self)
         /\ snd (LevelMarker.paint view (line self) (_level_marker self)) =
            true.
Proof.
  destruct (init_returns host chart0) as (self0 & E0).
  exists self0. split; [exact E0|]. intros cs view self.
  assert (R : Protocol.reachable host self)
    by (apply run_reachable; exact (Protocol.reach_init host chart0 self0 E0)).
  destruct (reachable_shape _ R) as (Hk & Hl & _).
  unfold LevelMarker.paint. rewrite Hk. split; [reflexivity|].
  unfold LevelMarker.position_in_view.
  destruct (snd (ChartView.viewRange view)) as [ymn ymx].
  cbn [snd]. destruct (PyFloat.gtb _ _); [|destruct (PyFloat.ltb _ _)];
    cbn; rewrite Hl; reflexivity.
Qed.

(** The marker's identity after a call. *)
Lemma step_marker_id (self : t) (c : Protocol.call) :
  LevelMarker.id (_level_marker (Session.step host self c)) =
  LevelMarker.id (_level_marker self).
Proof.
  unfold Session.step, state_after.
  destruct c as [[p s]| | |]; unfold Protocol.exec.
  - crunch self s; cbn; marker_facts; reflexivity.
  - open_tracker self; unfold show, bind, gets; cbn;
      destruct (PyFloat.truthy (Position.size i)); reflexivity.
  - open_tracker self; reflexivity.
  - open_tracker self; reflexivity.
Qed.

Lemma run_marker_id (cs : list Protocol.call) (self : t) :
  LevelMarker.id (_level_marker (Session.run host cs self)) =
  LevelMarker.id (_level_marker self).
Proof.
  unfold Session.run. revert self.
  induction cs as [|c cs IH]; intros self; cbn [fold_left].
  - reflexivity.
  - rewrite IH. apply step_marker_id.
Qed.

(** X9.  A tracker has one marker for life: no session replaces it, it
    stays in the scene, and the mutual links stay in place, the pp label
    anchored to that marker and the marker re-anchoring the pp label. *)
Theorem marker_and_pp_label_stay_linked (chart0 : Chart.t) :
  exists self0,
    __init__ host chart0 = Ok self0
    /\ forall cs,
         let self := Session.run host cs self0 in
         LevelMarker.id (_level_marker self) =
         LevelMarker.id (_level_marker self0)
         /\ In (LevelMarker.id (_level_marker self)) (Chart.scene (chart self))
         /\ Label.scene_anchor (pp_label self) =
            Some (Label.partial_gpath_pin (LevelMarker.id (_level_marker self0)))
         /\ LevelMarker.label (_level_marker self) =
            Some LevelMarker.pp_label_ref
         /\ Label.scene_anchor (size_label self) =
            Some Label.right_of_pp_label.
Proof.
  destruct (init_returns host chart0) as (self0 & E0).
  exists self0. split; [exact E0|]. intros cs self.
  assert (R : Protocol.reachable host self)
    by (apply run_reachable; exact (Protocol.reach_init host chart0 self0 E0)).
  destruct (reachable_shape _ R) as (_ & Hl & _ & _ & _ & Hpa & _ & _ & Hsa & _).
  destruct (reachable_invariant host self R) as (_ & Hin & _).
  assert (Hid : LevelMarker.id (_level_marker self) =
                LevelMarker.id (_level_marker self0))
    by apply run_marker_id.
  rewrite <- Hid. auto.
Qed.

(** *** Repositioning *)

(** X10.  [position_in_view] moves the marker and does nothing else to
    it, always to the x of the right marker point; repeating it under the
    same view and line changes nothing more. *)
Theorem position_in_view_only_moves (view : ChartView.t)
  (line : option LevelLine.t) (m : LevelMarker.t) :
  let r := LevelMarker.position_in_view view line m in
  fst r = LevelMarker.setPos (LevelMarker.pos (fst r)) m
  /\ fst (LevelMarker.pos (fst r)) = LevelMarker.scene_x view
  /\ LevelMarker.position_in_view view line (fst r) = r.
Proof.
  unfold LevelMarker.position_in_view.
  destruct (snd (ChartView.viewRange view)) as [ymn ymx].
  destruct m as [i sc st br g lv k lb d pn bs v ps]. cbn.
  destruct (PyFloat.gtb (g line) ymx) eqn:E1;
    [|destruct (PyFloat.ltb (g line) ymn) eqn:E2];
    cbn; rewrite ?E1, ?E2; repeat split.
Qed.

(** *** Subscriptions and the scene *)

(** X11.  Range-change subscriptions only accumulate.  A call connects
    the marker's [position_in_view] once more exactly when it is an
    [update] that creates the line (no line, size positive or negative);
    every other call, the deletion of the line included, leaves the
    connections as they are. *)
Theorem range_subscriptions_accumulate (self : t) (c : Protocol.call) :
  let creates :=
    match c with
    | Protocol.Update msg =>
        is_None (line self)
        && (PyFloat.gtb (BrokerdPosition.size msg) PyFloat.zero
            || PyFloat.ltb (BrokerdPosition.size msg) PyFloat.zero)
    | _ => false
    end in
  Chart.sigRangeChanged (chart (Session.step host self c)) =
  (Chart.sigRangeChanged (chart self)
   ++ (if creates then [LevelMarker.id (_level_marker self)] else []))%list.
Proof.
  unfold Session.step, state_after.
  destruct c as [[p s]| | |]; unfold Protocol.exec.
  - crunch self s; cbn; marker_facts; rewrite ?app_nil_r; reflexivity.
  - open_tracker self; unfold show, bind, gets; cbn;
      destruct (PyFloat.truthy (Position.size i)); cbn;
      now rewrite app_nil_r.
  - open_tracker self; cbn; now rewrite app_nil_r.
  - open_tracker self; cbn; now rewrite app_nil_r.
Qed.

(** Removing the head of a list in which it does not occur again. *)
Lemma remove_head (x : nat) (l : list nat) :
  ~ In x l -> List.remove Nat.eq_dec x (x :: l) = l.
Proof.
  intros H. cbn. destruct (Nat.eq_dec x x) as [_|N]; [|now contradiction N].
  now apply notin_remove.
Qed.

(** One call on a tracker whose scene is the line, if any, before the
    items [base] that were allocated earlier. *)
Lemma step_scene (base : list nat) (self : t) (c : Protocol.call) :
  Chart.scene (chart self) =
  (match line self with Some l => [LevelLine.id l] | None => [] end ++ base)%list ->
  (forall i, In i base -> (i < Chart.next_id (chart self))%nat) ->
  (forall l, line self = Some l -> ~ In (LevelLine.id l) base) ->
  let self' := Session.step host self c in
  Chart.scene (chart self') =
  (match line self' with Some l => [LevelLine.id l] | None => [] end ++ base)%list
  /\ (forall i, In i base -> (i < Chart.next_id (chart self'))%nat)
  /\ (forall l, line self' = Some l -> ~ In (LevelLine.id l) base).
Proof.
  intros Hsc Hlt Hni. unfold Session.step, state_after.
  destruct c as [[p s]| | |]; unfold Protocol.exec.
  - crunch self s; cbn in *; rewrite ?Hsc;
      repeat split; auto; intros; tidy;
      try (apply remove_head; exact (Hni _ eq_refl));
      try (exact (Hni _ eq_refl));
      try (match goal with
           | H : In ?i base |- (?i < S _)%nat => specialize (Hlt i H); lia
           | |- ~ In (Chart.next_id ?c) base =>
               intros Hin; specialize (Hlt _ Hin); lia
           end).
  - open_tracker self; unfold show, bind, gets; cbn in *;
      destruct (PyFloat.truthy (Position.size i)); cbn;
      repeat split; auto; intros; tidy; exact (Hni _ eq_refl).
  - open_tracker self; cbn in *;
      repeat split; auto; intros; tidy; exact (Hni _ eq_refl).
  - open_tracker self; cbn in *; repeat split; auto.
Qed.

(** What the constructor leaves in the chart. *)
Lemma init_chart (chart0 : Chart.t) (self0 : t) :
  __init__ host chart0 = Ok self0 ->
  line self0 = None
  /\ LevelMarker.id (_level_marker self0) = Chart.next_id chart0
  /\ Chart.next_id (chart self0) = S (Chart.next_id chart0)
  /\ Chart.scene (chart self0) = Chart.next_id chart0 :: Chart.scene chart0
  /\ Chart.sigRangeChanged (chart self0) = Chart.sigRangeChanged chart0.
Proof.
  intros E0. unfold __init__, level_marker_on in E0.
  rewrite PyFloatFacts.one_positive in E0. cbn in E0. injection E0 as <-.
  cbn. repeat split.
Qed.

(** X12.  Lines do not pile up in the scene.  On a chart whose items
    were allocated from its counter, in every state of every session the
    scene is the chart's own items, the marker, and in front the one line
    the tracker holds, if it holds one: a deleted line is gone, and no
    second line is ever added. *)
Theorem scene_holds_marker_and_current_line (chart0 : Chart.t) :
  (forall i, In i (Chart.scene chart0) -> (i < Chart.next_id chart0)%nat) ->
  exists self0,
    __init__ host chart0 = Ok self0
    /\ forall cs,
         let self := Session.run host cs self0 in
         Chart.scene (chart self) =
         (match line self with Some l => [LevelLine.id l] | None => [] end
          ++ LevelMarker.id (_level_marker self0) :: Chart.scene chart0)%list.
Proof.
  intros Hfresh.
  destruct (init_returns host chart0) as (self0 & E0).
  exists self0. split; [exact E0|].
  destruct (init_chart chart0 self0 E0) as (Hl0 & Hid & Hn0 & Hs0 & _).
  rewrite Hid. set (base := Chart.next_id chart0 :: Chart.scene chart0).
  assert (H0 :
    Chart.scene (chart self0) =
    (match line self0 with Some l => [LevelLine.id l] | None => [] end ++ base)%list
    /\ (forall i, In i base -> (i < Chart.next_id (chart self0))%nat)
    /\ (forall l, line self0 = Some l -> ~ In (LevelLine.id l) base)).
  { rewrite Hl0, Hs0, Hn0. repeat split; try discriminate.
    intros i [<-|Hi]; [lia|]. specialize (Hfresh i Hi). lia. }
  clear E0 Hl0 Hid Hn0 Hs0. intros cs. cbn zeta. unfold Session.run.
  revert self0 H0. induction cs as [|c cs IH]; intros self0 (H1 & H2 & H3).
  - exact H1.
  - cbn [fold_left]. apply IH. exact (step_scene base self0 c H1 H2 H3).
Qed.

(** *** [level_marker] called on a constructed tracker *)

(** X13.  On a tracker whose marker is in the scene, [level_marker] with
    a positive or negative size takes that marker out of the scene and
    returns a new arrow, added to the scene under a fresh identity,
    without label, pen or brush; it does not store the arrow: every
    attribute of the tracker but the chart is as before.  On a reachable
    tracker [_level_marker] then names a glyph that is no longer in the
    scene, and any further [level_marker] call raises in [delete] and
    changes nothing. *)
Theorem level_marker_returns_unstored_arrow (self : t) (size : float) :
  In (LevelMarker.id (_level_marker self)) (Chart.scene (chart self)) ->
  PyFloat.gtb size PyFloat.zero = true \/ PyFloat.ltb size PyFloat.zero = true ->
  let r := level_marker host size self in
  let self' := state_after r in
  exists arrow,
    fst r = Ok arrow
    /\ LevelMarker.id arrow = Chart.next_id (chart self)
    /\ LevelMarker.label arrow = None
    /\ LevelMarker.pen arrow = None
    /\ LevelMarker.brush arrow = None
    /\ self' = set_chart (chart self') self
    /\ Chart.scene (chart self') =
       LevelMarker.id arrow
       :: List.remove Nat.eq_dec (LevelMarker.id (_level_marker self))
            (Chart.scene (chart self))
    /\ (Protocol.reachable host self ->
        ~ In (LevelMarker.id (_level_marker self'))
             (Chart.scene (chart self'))
        /\ forall size',
             level_marker host size' self' =
             (Raise (AttributeError "removeItem"), self')).
Proof.
  intros Hin Hs. cbn zeta.
  rewrite (level_marker_in_scene host self size Hin).
  assert (Hout : forall s',
    Protocol.reachable host self ->
    _level_marker s' = _level_marker self ->
    Chart.scene (chart s') =
    Chart.next_id (chart self)
    :: List.remove Nat.eq_dec (LevelMarker.id (_level_marker self))
         (Chart.scene (chart self)) ->
    ~ In (LevelMarker.id (_level_marker s')) (Chart.scene (chart s'))).
  { intros s' R Em Es. rewrite Em, Es.
    destruct (reachable_invariant host _ R) as (_ & _ & Hlt & _).
    intros [E|H]; [lia|]. exact (remove_In Nat.eq_dec _ _ H). }
  unfold on_chart, state_after in *.
  crunch self size; cbn in Hs; destruct Hs as [Hs|Hs]; try discriminate Hs;
    (eexists; split; [norm; reflexivity|]);
    (split; [reflexivity|]); (split; [reflexivity|]);
    (split; [reflexivity|]); (split; [reflexivity|]);
    (split; [reflexivity|]); (split; [reflexivity|]);
    intros R;
    match goal with
    | |- ~ In _ (Chart.scene (chart ?s)) /\ _ =>
        assert (Hni := Hout s R eq_refl eq_refl)
    end;
    (split; [exact Hni|]); intros size';
    exact (level_marker_out_of_scene host _ size' Hni).
Qed.

(** X14.  [level_marker] with a size that is neither positive nor
    negative (zero or NaN) builds no arrow.  With the tracker's marker in
    the scene it raises on the unassigned [style], and by then it has
    deleted the marker: the marker is out of the scene, no arrow has been
    allocated, and nothing else has changed.  With the marker out of the
    scene it raises earlier, in [delete], and changes nothing. *)
Theorem level_marker_unassigned_loses_marker (self : t) (size : float) :
  PyFloat.gtb size PyFloat.zero = false ->
  PyFloat.ltb size PyFloat.zero = false ->
  let r := level_marker host size self in
  let self' := state_after r in
  (In (LevelMarker.id (_level_marker self)) (Chart.scene (chart self)) ->
   fst r = Raise (UnboundLocalError "style")
   /\ self' = set_chart (chart self') self
   /\ Chart.scene (chart self') =
      List.remove Nat.eq_dec (LevelMarker.id (_level_marker self))
        (Chart.scene (chart self))
   /\ Chart.next_id (chart self') = Chart.next_id (chart self)
   /\ ~ In (LevelMarker.id (_level_marker self')) (Chart.scene (chart self')))
  /\ (~ In (LevelMarker.id (_level_marker self)) (Chart.scene (chart self)) ->
      r = (Raise (AttributeError "removeItem"), self)).
Proof.
  intros Hg Hl. cbn zeta. split.
  - intros Hin. rewrite (level_marker_in_scene host self size Hin).
    unfold on_chart, state_after.
    crunch self size; cbn in Hg, Hl; try discriminate Hg; try discriminate Hl;
      cbn; repeat split; apply remove_In.
  - intros Hout. exact (level_marker_out_of_scene host self size Hout).
Qed.

(** *** How the calls compose *)

(** X15.  After an [update] with a nonzero size, [hide()] followed by
    [show()] brings the tracker back to the state the [update] left. *)
Theorem hide_then_show_restores (self : t) (msg : BrokerdPosition.t) :
  Protocol.well_formed msg ->
  PyFloat.eqb (BrokerdPosition.size msg) PyFloat.zero = false ->
  let self1 := state_after (update host msg self) in
  fst (hide self1) = Ok tt
  /\ show (state_after (hide self1)) = (Ok tt, self1).
Proof.
  destruct msg as [p s]. unfold Protocol.well_formed, Protocol.numeric.
  crunch self s; intros Hs Hz; try discriminate Hs; cbn in Hz;
    try discriminate Hz; (split; [reflexivity|]); norm; reflexivity.
Qed.

(** The state [show()] leaves. *)
Lemma show_state (self : t) :
  state_after (show self) =
  if PyFloat.truthy (Position.size (info self)) then
    match line self with
    | Some l =>
        set_size_label Label.show
          (set_pp_label Label.show
             (set_marker LevelMarker.show
                (set_line (Some (LevelLine.show l)) self)))
    | None => self
    end
  else self.
Proof.
  unfold show, bind, gets, state_after. cbn.
  destruct (PyFloat.truthy (Position.size (info self)));
    destruct (line self); reflexivity.
Qed.

(** An [update] does not see the visibility a [show], [hide] or
    [hide_info] call left. *)
Lemma update_after_visibility_call (self : t) (msg : BrokerdPosition.t)
  (c : Protocol.call) :
  Protocol.well_formed msg ->
  Session.is_update c = false ->
  update host msg (Session.step host self c) = update host msg self.
Proof.
  destruct msg as [p s]. unfold Protocol.well_formed, Protocol.numeric.
  intros Hs Hc. unfold Session.step.
  destruct c as [m| | |]; [discriminate Hc| | |]; unfold Protocol.exec.
  - rewrite show_state.
    crunch self s; try discriminate Hs; cbn [info line Position.size];
      destruct (PyFloat.truthy (Position.size i)); norm; by_style;
      reflexivity.
  - unfold state_after.
    crunch self s; try discriminate Hs; norm; by_style; reflexivity.
  - unfold state_after.
    crunch self s; try discriminate Hs; norm; by_style; reflexivity.
Qed.

(** X16.  An [update] is a full refresh of what is shown: whatever
    [show], [hide] and [hide_info] calls came before it, it leaves the
    state it would have left without them; so repeating the last message
    after any such calls restores the state that message left. *)
Theorem update_overrides_visibility_calls (self : t)
  (msg : BrokerdPosition.t) (cs : list Protocol.call) :
  Protocol.well_formed msg ->
  forallb (fun c => negb (Session.is_update c)) cs = true ->
  update host msg (Session.run host cs self) = update host msg self
  /\ update host msg
       (Session.run host cs (state_after (update host msg self))) =
     (Ok tt, state_after (update host msg self)).
Proof.
  intros Hwf Hcs.
  assert (H : forall s0,
            update host msg (Session.run host cs s0) = update host msg s0).
  { unfold Session.run. induction cs as [|c cs IH]; intros s0; cbn [fold_left].
    - reflexivity.
    - cbn [forallb] in Hcs. apply andb_prop in Hcs. destruct Hcs as [Hc Hcs].
      rewrite (IH Hcs). apply update_after_visibility_call; [exact Hwf|].
      now destruct (Session.is_update c). }
  split; [apply H|]. rewrite H.
  destruct (update_twice host self msg Hwf) as (self1 & E1 & E2).
  rewrite E1. exact E2.
Qed.

(** X17.  From an update to the endpoint anchor: on a reachable tracker,
    after an [update] with a size that is a number and a paint cycle,
    [align_to_marker] is the origin when the size is zero; when the size
    is nonzero and the price is within the visible range, it is the point
    left of the right marker point by the label's width, at the mapped
    height of the price. *)
Theorem align_to_marker_after_update_and_repaint (self : t)
  (msg : BrokerdPosition.t) (view : ChartView.t) (size_label_w : float) :
  Protocol.reachable host self ->
  Protocol.well_formed msg ->
  let price := BrokerdPosition.avg_price msg in
  let self' :=
    TrackerView.repaint view (state_after (update host msg self)) in
  (PyFloat.eqb (BrokerdPosition.size msg) PyFloat.zero = true ->
   TrackerView.align_to_marker size_label_w self' =
   (PyFloat.zero, PyFloat.zero))
  /\ (PyFloat.eqb (BrokerdPosition.size msg) PyFloat.zero = false ->
      PyFloat.leb (fst (snd (ChartView.viewRange view))) price = true ->
      PyFloat.leb price (snd (snd (ChartView.viewRange view))) = true ->
      TrackerView.align_to_marker size_label_w self' =
      (PyFloat.sub (LevelMarker.scene_x view) size_label_w,
       snd (ChartView.mapFromView view (PyFloat.zero, price)))).
Proof.
  intros R Hwf. cbn zeta.
  destruct (update_step host self msg Hwf)
    as (self1 & E & _ & _ & Hiff & Hline & _).
  assert (R1 : Protocol.reachable host self1).
  { change self1 with (state_after (Ok tt, self1)). rewrite <- E.
    exact (Protocol.reach_call host (Protocol.Update msg) self R). }
  rewrite E. unfold state_after. cbn [snd].
  destruct (reachable_shape self1 R1) as (Hk & _).
  destruct (reachable_invariant host self1 R1) as (Hg & _).
  unfold TrackerView.align_to_marker, TrackerView.repaint.
  split.
  - intros Hz. destruct (line self1) as [l|] eqn:El.
    + assert (Hn : Some l <> None) by discriminate.
      apply Hiff in Hn. congruence.
    + destruct self1; cbn in *. now rewrite El.
  - intros Hz H1 H2. apply Hiff in Hz.
    destruct (line self1) as [l|] eqn:El; [|now contradiction Hz].
    destruct (Hline l eq_refl) as (Hv & _).
    assert (Hpos :
      fst (LevelMarker.paint view (Some l) (_level_marker self1)) =
      LevelMarker.setPos
        (LevelMarker.scene_x view,
         snd (ChartView.mapFromView view
                (PyFloat.zero, BrokerdPosition.avg_price msg)))
        (_level_marker self1)).
    { unfold LevelMarker.paint. rewrite Hk.
      rewrite LevelMarkerSpec.placed_mapped; rewrite ?Hg; cbn [level];
        rewrite ?Hv.
      - reflexivity.
      - now apply PyFloatFacts.leb_not_gtb.
      - now apply PyFloatFacts.leb_not_ltb. }
    destruct self1; cbn in *. rewrite El, Hpos. reflexivity.
Qed.

(** *** The snapshot *)

(** The line against the snapshot, in every reachable state. *)
Lemma reachable_snapshot (self : t) :
  Protocol.reachable host self ->
  (line self <> None <->
   PyFloat.eqb (Position.size (info self)) PyFloat.zero = false)
  /\ (forall l, line self = Some l ->
        LevelLine.value l = Position.avg_price (info self)).
Proof.
  induction 1 as [chart0 self E | c self R IH].
  - unfold __init__, level_marker_on in E.
    rewrite PyFloatFacts.one_positive in E. cbn in E. injection E as <-.
    cbn. repeat split; intros; tidy.
  - destruct IH as (Hiff & Hval).
    destruct c as [[p s]| | |]; unfold Protocol.exec.
    + unfold state_after. crunch self s; cbn; repeat split; intros; tidy.
    + rewrite show_state.
      open_tracker self; cbn in *;
        destruct (PyFloat.truthy (Position.size i)); cbn;
        (split; [split; intros; tidy; apply Hiff; auto; discriminate|]);
        intros; tidy; exact (Hval _ eq_refl).
    + unfold state_after. open_tracker self; cbn in *;
        (split; [split; intros; tidy; apply Hiff; auto; discriminate|]);
        intros; tidy; exact (Hval _ eq_refl).
    + unfold state_after. open_tracker self; cbn in *; split; assumption.
Qed.

(** X18.  The line follows the snapshot in every state of every session,
    also after an [update] that raised: a line exists exactly when the
    snapshot's size is nonzero, and its level is the snapshot's average
    price. *)
Theorem line_follows_snapshot (chart0 : Chart.t) :
  exists self0,
    __init__ host chart0 = Ok self0
    /\ forall cs,
         let self := Session.run host cs self0 in
         (line self <> None <->
          PyFloat.eqb (Position.size (info self)) PyFloat.zero = false)
         /\ (forall l, line self = Some l ->
               LevelLine.value l = Position.avg_price (info self)
               /\ In (LevelLine.id l) (Chart.scene (chart self))).
Proof.
  destruct (init_returns host chart0) as (self0 & E0).
  exists self0. split; [exact E0|]. intros cs self.
  assert (R : Protocol.reachable host self)
    by (apply run_reachable; exact (Protocol.reach_init host chart0 self0 E0)).
  destruct (reachable_snapshot self R) as (Hiff & Hval).
  destruct (reachable_shape self R)
    as (_ & _ & _ & _ & _ & _ & _ & _ & _ & _ & _ & Hline).
  split; [exact Hiff|]. intros l Hl. split; [exact (Hval l Hl)|].
  now destruct (Hline l Hl).
Qed.

(** X19.  The tracker never records a fill and never renames its
    snapshot: in every state of every session the fills are empty and the
    symbol is the chart's, and the pp label still reads ["pp"] with no
    fields. *)
Theorem snapshot_keeps_symbol_and_no_fills (chart0 : Chart.t) :
  exists self0,
    __init__ host chart0 = Ok self0
    /\ forall cs,
         let self := Session.run host cs self0 in
         Position.fills (info self) = []
         /\ Position.symbol (info self) = Chart.symbol (chart self)
         /\ Label.fmt_str (pp_label self) = "pp"
         /\ Label.fields (pp_label self) = [].
Proof.
  destruct (init_returns host chart0) as (self0 & E0).
  exists self0. split; [exact E0|]. intros cs self.
  assert (R : Protocol.reachable host self)
    by (apply run_reachable; exact (Protocol.reach_init host chart0 self0 E0)).
  destruct (reachable_shape self R)
    as (_ & _ & _ & _ & _ & _ & Hpf & Hpd & _ & Hf & Hsy & _).
  auto.
Qed.

End WithHost.

(** *** The theorems with a precondition, at the example tracker *)

(** X2 at the example tracker, which has no line, and the price 100. *)
Lemma update_raise_leaves_line_stored_witness :
  let self := Examples.tracker in
  let price := PyFloat.of_Z 100 in
  let msg := BrokerdPosition.mk price PyFloat.nan in
  let self' := state_after (update Examples.host msg self) in
  line self = None
  /\ fst (update Examples.host msg self) = Raise (UnboundLocalError "style")
  /\ info self' =
     Position.set_size PyFloat.nan (Position.set_avg_price price (info self))
  /\ (exists l,
        line self' = Some l
        /\ LevelLine.id l = Chart.next_id (chart self)
        /\ LevelLine.value l = price
        /\ Chart.scene (chart self') = LevelLine.id l :: Chart.scene (chart self))
  /\ Chart.sigRangeChanged (chart self') = Chart.sigRangeChanged (chart self)
  /\ _level_marker self' = _level_marker self
  /\ pp_label self' = pp_label self
  /\ size_label self' = size_label self.
Proof.
  split; [reflexivity|].
  apply (update_raise_leaves_line_stored Examples.host Examples.tracker
           (PyFloat.of_Z 100)).
  reflexivity.
Defined.

(** X4 at the example tracker and the message (100, 5). *)
Lemma update_shows_all_or_hides_all_witness :
  let msg := Examples.msg 100 5 in
  let self' := state_after (update Examples.host msg Examples.tracker) in
  let shown := negb (PyFloat.eqb (BrokerdPosition.size msg) PyFloat.zero) in
  Protocol.well_formed msg
  /\ LevelMarker.visible (_level_marker self') = shown
  /\ Label.visible (pp_label self') = shown
  /\ Label.visible (size_label self') = shown
  /\ (forall l, line self' = Some l -> LevelLine.visible l = true)
  /\ (shown = false -> line self' = None).
Proof.
  split; [reflexivity|].
  apply (update_shows_all_or_hides_all Examples.host Examples.tracker
           (Examples.msg 100 5)).
  reflexivity.
Defined.

(** X12 at the example chart, whose scene is empty. *)
Lemma scene_holds_marker_and_current_line_witness :
  (forall i, In i (Chart.scene Examples.chart) ->
     (i < Chart.next_id Examples.chart)%nat)
  /\ exists self0,
       __init__ Examples.host Examples.chart = Ok self0
       /\ forall cs,
            let self := Session.run Examples.host cs self0 in
            Chart.scene (chart self) =
            (match line self with Some l => [LevelLine.id l] | None => [] end
             ++ LevelMarker.id (_level_marker self0)
                :: Chart.scene Examples.chart)%list.
Proof.
  assert (H : forall i, In i (Chart.scene Examples.chart) ->
                (i < Chart.next_id Examples.chart)%nat)
    by (intros i []).
  split; [exact H|].
  exact (scene_holds_marker_and_current_line Examples.host Examples.chart H).
Defined.

(** X8 at the example tracker, whose marker has the up style, and the
    size -3. *)
Lemma bounding_box_taken_at_style_change_witness :
  let self := Examples.tracker in
  let size := PyFloat.of_Z (-3) in
  let level := PyFloat.of_Z 50 in
  let style := if PyFloat.gtb size PyFloat.zero then "|<" else ">|" in
  let m := _level_marker self in
  let m' :=
    _level_marker
      (state_after (position_line Examples.host size level self)) in
  (PyFloat.gtb size PyFloat.zero = true \/ PyFloat.ltb size PyFloat.zero = true)
  /\ LevelMarker._style m' = style
  /\ LevelMarker.pos m' = LevelMarker.pos m
  /\ LevelMarker.scale m' = LevelMarker.scale m
  /\ (LevelMarker._style m <> style ->
      LevelMarker.path_br m' =
      Host.marker_path_br Examples.host style (LevelMarker.scale m)
        (LevelMarker.pos m))
  /\ (LevelMarker._style m = style ->
      LevelMarker.path_br m' = LevelMarker.path_br m).
Proof.
  assert (Hs : PyFloat.gtb (PyFloat.of_Z (-3)) PyFloat.zero = true
               \/ PyFloat.ltb (PyFloat.of_Z (-3)) PyFloat.zero = true)
    by (right; reflexivity).
  split; [exact Hs|].
  exact (bounding_box_taken_at_style_change Examples.host Examples.tracker
           (PyFloat.of_Z (-3)) (PyFloat.of_Z 50) Hs).
Defined.

(** X13 at the example tracker, whose marker is in the scene, and the
    size 5. *)
Lemma level_marker_returns_unstored_arrow_witness :
  let self := Examples.tracker in
  let size := PyFloat.of_Z 5 in
  let r := level_marker Examples.host size self in
  let self' := state_after r in
  (In (LevelMarker.id (_level_marker self)) (Chart.scene (chart self))
   /\ (PyFloat.gtb size PyFloat.zero = true
       \/ PyFloat.ltb size PyFloat.zero = true))
  /\ exists arrow,
       fst r = Ok arrow
       /\ LevelMarker.id arrow = Chart.next_id (chart self)
       /\ LevelMarker.label arrow = None
       /\ LevelMarker.pen arrow = None
       /\ LevelMarker.brush arrow = None
       /\ self' = set_chart (chart self') self
       /\ Chart.scene (chart self') =
          LevelMarker.id arrow
          :: List.remove Nat.eq_dec (LevelMarker.id (_level_marker self))
               (Chart.scene (chart self))
       /\ (Protocol.reachable Examples.host self ->
           ~ In (LevelMarker.id (_level_marker self'))
                (Chart.scene (chart self'))
           /\ forall size',
                level_marker Examples.host size' self' =
                (Raise (AttributeError "removeItem"), self')).
Proof.
  assert (Hin : In (LevelMarker.id (_level_marker Examples.tracker))
                   (Chart.scene (chart Examples.tracker)))
    by (left; reflexivity).
  assert (Hs : PyFloat.gtb (PyFloat.of_Z 5) PyFloat.zero = true
               \/ PyFloat.ltb (PyFloat.of_Z 5) PyFloat.zero = true)
    by (left; reflexivity).
  split; [split; [exact Hin|exact Hs]|].
  exact (level_marker_returns_unstored_arrow Examples.host Examples.tracker
           (PyFloat.of_Z 5) Hin Hs).
Defined.

(** X14 at the example tracker and the size 0. *)
Lemma level_marker_unassigned_loses_marker_witness :
  let self := Examples.tracker in
  let size := PyFloat.zero in
  let r := level_marker Examples.host size self in
  let self' := state_after r in
  (PyFloat.gtb size PyFloat.zero = false /\ PyFloat.ltb size PyFloat.zero = false)
  /\ (In (LevelMarker.id (_level_marker self)) (Chart.scene (chart self)) ->
      fst r = Raise (UnboundLocalError "style")
      /\ self' = set_chart (chart self') self
      /\ Chart.scene (chart self') =
         List.remove Nat.eq_dec (LevelMarker.id (_level_marker self))
           (Chart.scene (chart self))
      /\ Chart.next_id (chart self') = Chart.next_id (chart self)
      /\ ~ In (LevelMarker.id (_level_marker self'))
              (Chart.scene (chart self')))
  /\ (~ In (LevelMarker.id (_level_marker self)) (Chart.scene (chart self)) ->
      r = (Raise (AttributeError "removeItem"), self)).
Proof.
  split; [split; reflexivity|].
  apply (level_marker_unassigned_loses_marker Examples.host Examples.tracker
           PyFloat.zero); reflexivity.
Defined.

(** X15 at the example tracker and the message (100, 5). *)
Lemma hide_then_show_restores_witness :
  let msg := Examples.msg 100 5 in
  let self1 := state_after (update Examples.host msg Examples.tracker) in
  (Protocol.well_formed msg
   /\ PyFloat.eqb (BrokerdPosition.size msg) PyFloat.zero = false)
  /\ fst (hide self1) = Ok tt
  /\ show (state_after (hide self1)) = (Ok tt, self1).
Proof.
  split; [split; reflexivity|].
  apply (hide_then_show_restores Examples.host Examples.tracker
           (Examples.msg 100 5)); reflexivity.
Defined.

(** X16 at the example tracker: hide, show and hide_info between two
    updates with the message (100, 5). *)
Lemma update_overrides_visibility_calls_witness :
  let self := Examples.tracker in
  let msg := Examples.msg 100 5 in
  let cs := [Protocol.Hide; Protocol.Show; Protocol.HideInfo] in
  (Protocol.well_formed msg
   /\ forallb (fun c => negb (Session.is_update c)) cs = true)
  /\ update Examples.host msg (Session.run Examples.host cs self) =
     update Examples.host msg self
  /\ update Examples.host msg
       (Session.run Examples.host cs
          (state_after (update Examples.host msg self))) =
     (Ok tt, state_after (update Examples.host msg self)).
Proof.
  split; [split; reflexivity|].
  apply (update_overrides_visibility_calls Examples.host Examples.tracker
           (Examples.msg 100 5)
           [Protocol.Hide; Protocol.Show; Protocol.HideInfo]); reflexivity.
Defined.

(** X17 at the example tracker, the message (50, 5), the example view and
    a label 20 wide. *)
Lemma align_to_marker_after_update_and_repaint_witness :
  let self := Examples.tracker in
  let msg := Examples.msg 50 5 in
  let view := Examples.view in
  let size_label_w := PyFloat.of_Z 20 in
  let price := BrokerdPosition.avg_price msg in
  let self' :=
    TrackerView.repaint view (state_after (update Examples.host msg self)) in
  (Protocol.reachable Examples.host self /\ Protocol.well_formed msg)
  /\ (PyFloat.eqb (BrokerdPosition.size msg) PyFloat.zero = true ->
      TrackerView.align_to_marker size_label_w self' =
      (PyFloat.zero, PyFloat.zero))
  /\ (PyFloat.eqb (BrokerdPosition.size msg) PyFloat.zero = false ->
      PyFloat.leb (fst (snd (ChartView.viewRange view))) price = true ->
      PyFloat.leb price (snd (snd (ChartView.viewRange view))) = true ->
      TrackerView.align_to_marker size_label_w self' =
      (PyFloat.sub (LevelMarker.scene_x view) size_label_w,
       snd (ChartView.mapFromView view (PyFloat.zero, price)))).
Proof.
  assert (R : Protocol.reachable Examples.host Examples.tracker)
    by exact (Protocol.reach_init Examples.host Examples.chart
                Examples.tracker eq_refl).
  split; [split; [exact R|reflexivity]|].
  apply (align_to_marker_after_update_and_repaint Examples.host
           Examples.tracker (Examples.msg 50 5) Examples.view
           (PyFloat.of_Z 20) R).
  reflexivity.
Defined.

End SessionSpec.
